(** * RobotUltrasound: robot-guided ultrasound sweep control

    A shallow embedding of the robot-control handlers of
    [RobotUltrasound/RobotUltrasound.py] (class [RobotUltrasoundWidget]) and
    of the pose publisher of [tests/drivemycobot.py].

    Python numbers are IEEE binary64 floats (the integer literals of the
    source are exactly representable).  A handler is a computation over
    the mutable globals it reads and writes ([slicer.mc], the publisher
    flag, the parameter node, the sliders, the MRML scene), that logs every
    call it makes into the host application or the vendor arm library, in
    order, and that either returns or raises a Python exception. *)

From Stdlib Require Import ZArith List String Bool Lia.
From Stdlib Require Import Floats.PrimFloat Floats.FloatOps Floats.SpecFloat.
From stdpp Require Import base option list.
Import ListNotations.
Open Scope string_scope.
Open Scope float_scope.
Open Scope Z_scope.
Open Scope list_scope.
Set Warnings "-inexact-float".

(** ** Python values and exceptions *)

Inductive Exn : Type :=
| NameError (name : string)
| AttributeError (attr : string)
| IndexError
| ValueError
| OverflowError.

Inductive Res (A : Type) : Type :=
| Ok (a : A)
| Raise (x : Exn).
Arguments Ok {A} a.
Arguments Raise {A} x.

(** [int(x)] on a float: truncation toward zero; NaN and the infinities
    raise. *)
Definition py_int (x : float) : Res Z :=
  match Prim2SF x with
  | S754_zero _ => Ok 0
  | S754_finite s m e =>
      let v := if 0 <=? e then Z.shiftl (Z.pos m) e else Z.shiftr (Z.pos m) (- e) in
      Ok (if s then - v else v)
  | S754_infinity _ => Raise OverflowError
  | S754_nan => Raise ValueError
  end.

(** ** The vendor arm object ([pymycobot.MyCobot280]) *)

Record MyCobot : Type := {
  joint_angles : list float;       (* what [get_angles()] returns now *)
  controller_connected : bool      (* what [is_controller_connected()] returns now *)
}.

(** The attribute [slicer.mc]: never assigned, [None], or an arm object. *)
Inductive McSlot : Type :=
| McUnset
| McNone
| McObj (dev : MyCobot).

(** ** The MRML scene: nodes in creation order *)

Record Node : Type := {
  node_class : string;
  node_name : string
}.

Definition Scene : Type := list Node.

Definition firstNodeByName (name : string) (s : Scene) : option Node :=
  find (fun n => String.eqb (node_name n) name) s.

Definition firstNodeByClass (cls : string) (s : Scene) : option Node :=
  find (fun n => String.eqb (node_class n) cls) s.

(** ** 4x4 matrices ([vtk.vtkMatrix4x4]) *)

Definition Matrix4x4 : Type := list (list float).

(** A freshly constructed [vtkMatrix4x4] is the identity. *)
Definition vtkMatrix4x4 : Matrix4x4 :=
  [ [1; 0; 0; 0];
    [0; 1; 0; 0];
    [0; 0; 1; 0];
    [0; 0; 0; 1] ]%float.

Definition SetElement (i j : nat) (v : float) (m : Matrix4x4) : Matrix4x4 :=
  match m !! i with
  | Some row => <[i := <[j := v]> row]> m
  | None => m
  end.

Definition GetElement (i j : nat) (m : Matrix4x4) : option float :=
  row ← m !! i; row !! j.

(** What is handed to [SetMatrixTransformToParent]: an explicit matrix, or
    the matrix of a [vtkTransform] given by the operations applied to it. *)
Inductive TransformOp : Type :=
| RotateX (degrees : float)
| Scale (x y z : float).

Inductive Transform : Type :=
| T_matrix (m : Matrix4x4)
| T_ops (ops : list TransformOp).

(** ** The parameter node ([RobotUltrasoundParameterNode]) *)

Record ParameterNode : Type := {
  imageThreshold : float;
  speed : float;
  angleRange : float;
  invertThreshold : bool;
  centerAngles : list float;
  liveUpdates : bool
}.

(** The declared defaults (lines 69-76); a list parameter starts empty. *)
Definition defaultParameterNode : ParameterNode :=
  {| imageThreshold := 100; speed := 5; angleRange := 30;
     invertThreshold := false; centerAngles := []; liveUpdates := true |}.

(** Modelled from the spec: assignment to a bounded parameter.  The
    decorator [parameterNodeWrapper] and the validator [WithinRange] belong
    to the host platform and are not among this repository's files; the
    repository only declares the bounds (lines 69-71).  As the spec has it,
    a value outside the bounds is rejected at that boundary, raising
    instead of clamping, and the node keeps what it held. *)
Definition WithinRange (lo hi v : float) : Res unit :=
  if (v <? lo)%float || (hi <? v)%float then Raise ValueError else Ok tt.

Definition set_speed (v : float) (p : ParameterNode) : Res unit * ParameterNode :=
  match WithinRange 1 50 v with
  | Ok _ =>
      (Ok tt,
       {| imageThreshold := imageThreshold p; speed := v; angleRange := angleRange p;
          invertThreshold := invertThreshold p; centerAngles := centerAngles p;
          liveUpdates := liveUpdates p |})
  | Raise x => (Raise x, p)
  end.

Definition set_angleRange (v : float) (p : ParameterNode) : Res unit * ParameterNode :=
  match WithinRange 0 90 v with
  | Ok _ =>
      (Ok tt,
       {| imageThreshold := imageThreshold p; speed := speed p; angleRange := v;
          invertThreshold := invertThreshold p; centerAngles := centerAngles p;
          liveUpdates := liveUpdates p |})
  | Raise x => (Raise x, p)
  end.

(** ** Calls into the host application and the arm library *)

Inductive Callback : Type :=
| cb_updateProbeHolderToRobotBaseTransform
| cb_updateProbeToRobotBaseTransform.

Inductive Event : Type :=
(* slicer.mc.* *)
| E_send_angles (angles : list float) (spd : Z)
| E_sync_send_angles (angles : list float) (spd : Z)
| E_send_coords (coords : list float) (spd : Z) (mode : Z)
| E_get_angles
| E_angles_to_coords (angles : list float)
| E_is_controller_connected
(* qt, slicer.app, slicer.util, time, logging *)
| E_singleShot (msec : Z) (cb : Callback)
| E_processEvents
| E_sleep (seconds : float)
| E_errorDisplay (msg : string)
| E_logging_warning (msg : string)
(* slicer.mrmlScene *)
| E_GetFirstNodeByName (name : string)
| E_GetFirstNodeByClass (cls : string)
| E_AddNewNodeByClass (cls name : string)
(* transform nodes *)
| E_SetMatrixTransformToParent (node : string) (t : Transform)
| E_Modified (node : string)
| E_SetAndObserveTransformNodeID (node parent : string)
(* the OpenIGTLink connector *)
| E_connector_Stop
| E_connector_SetTypeClient (host : string) (port : Z)
| E_connector_Start
(* the Red slice view and the reslice driver *)
| E_SetBackgroundVolumeID (node : string)
| E_setSliceViewerLayers_background_None
| E_setSliceVisible (b : bool)
| E_FitSliceToBackground
| E_SetSliceResolutionMode_MatchVolumes
| E_SetDriverForSlice (node : string)
| E_SetModeForSlice (mode : Z)
| E_SetFlipForSlice (b : bool)
| E_SetRotationForSlice (degrees : Z)
| E_FitSliceToAll
(* the volume reconstruction node, its ROI and output volume *)
| E_SetLiveVolumeReconstruction (b : bool)
| E_CreateDefaultDisplayNodes (node : string)
| E_SetDisplayVisibility (node : string) (b : bool)
| E_SetAndObserveInputVolumeNode (node : option string)
| E_SetAndObserveOutputVolumeNode (node : string)
| E_SetAndObserveInputROINode (node : string)
| E_SetFillHoles (b : bool)
| E_SetLiveUpdateIntervalSeconds (s : Z)
| E_SetOutputSpacing (x y z : float)
| E_SetXYZ (x y z : float)
| E_SetRadiusXYZ (x y z : float)
| E_ResetVolumeReconstruction
| E_CreateDefaultVolumeRenderingNodes (node : string)
| E_vrDisplay_SetVisibility (b : bool)
| E_CopyVolumeProperty_preset (name : string)
| E_StartLiveVolumeReconstruction.

(** ** The mutable globals a handler works on *)

Record Env : Type := {
  mc : McSlot;                                          (* slicer.mc *)
  updateProbeHolderToRobotBaseTransformActive : bool;   (* slicer.<same name> *)
  updateProbeToRobotBaseTransformActive : bool;         (* slicer.<same name>, the script's flag *)
  parameterNode : ParameterNode;                        (* self._parameterNode *)
  speedSlider : float;                                  (* self.ui.speedSlider.value *)
  angleRangeSlider : float;                             (* self.ui.angleRangeSlider.value *)
  mrmlScene : Scene;                                    (* slicer.mrmlScene *)
  volumereslicedriver_logic : bool;                     (* slicer.modules.volumereslicedriver.logic() is not None *)
  processed : nat                                       (* calls of processEvents so far *)
}.

Definition set_mrmlScene (s : Scene) (e : Env) : Env :=
  {| mc := mc e;
     updateProbeHolderToRobotBaseTransformActive := updateProbeHolderToRobotBaseTransformActive e;
     updateProbeToRobotBaseTransformActive := updateProbeToRobotBaseTransformActive e;
     parameterNode := parameterNode e;
     speedSlider := speedSlider e;
     angleRangeSlider := angleRangeSlider e;
     mrmlScene := s;
     volumereslicedriver_logic := volumereslicedriver_logic e;
     processed := processed e |}.

Definition set_parameterNode (p : ParameterNode) (e : Env) : Env :=
  {| mc := mc e;
     updateProbeHolderToRobotBaseTransformActive := updateProbeHolderToRobotBaseTransformActive e;
     updateProbeToRobotBaseTransformActive := updateProbeToRobotBaseTransformActive e;
     parameterNode := p;
     speedSlider := speedSlider e;
     angleRangeSlider := angleRangeSlider e;
     mrmlScene := mrmlScene e;
     volumereslicedriver_logic := volumereslicedriver_logic e;
     processed := processed e |}.

Definition set_processed (n : nat) (e : Env) : Env :=
  {| mc := mc e;
     updateProbeHolderToRobotBaseTransformActive := updateProbeHolderToRobotBaseTransformActive e;
     updateProbeToRobotBaseTransformActive := updateProbeToRobotBaseTransformActive e;
     parameterNode := parameterNode e;
     speedSlider := speedSlider e;
     angleRangeSlider := angleRangeSlider e;
     mrmlScene := mrmlScene e;
     volumereslicedriver_logic := volumereslicedriver_logic e;
     processed := n |}.

Definition set_centerAngles (c : list float) (p : ParameterNode) : ParameterNode :=
  {| imageThreshold := imageThreshold p; speed := speed p; angleRange := angleRange p;
     invertThreshold := invertThreshold p; centerAngles := c; liveUpdates := liveUpdates p |}.

(** ** The handler monad: globals in, result, globals and call log out *)

Definition M (A : Type) : Type := Env -> Res A * Env * list Event.

#[global] Instance M_ret : MRet M := fun A a e => (Ok a, e, []).

#[global] Instance M_bind : MBind M := fun A B f m e =>
  match m e with
  | (Ok a, e1, t1) => let '(r, e2, t2) := f a e1 in (r, e2, t1 ++ t2)
  | (Raise x, e1, t1) => (Raise x, e1, t1)
  end.

Definition raise {A : Type} (x : Exn) : M A := fun e => (Raise x, e, []).
Definition emit (ev : Event) : M unit := fun e => (Ok tt, e, [ev]).
Definition gets {A : Type} (f : Env -> A) : M A := fun e => (Ok (f e), e, []).
Definition modify (f : Env -> Env) : M unit := fun e => (Ok tt, f e, []).
Definition lift {A : Type} (r : Res A) : M A := fun e => (r, e, []).

Definition result {A : Type} (x : Res A * Env * list Event) : Res A := fst (fst x).
Definition final {A : Type} (x : Res A * Env * list Event) : Env := snd (fst x).
Definition calls {A : Type} (x : Res A * Env * list Event) : list Event := snd x.

(** [l[i]] for a constant index [i >= 0]. *)
Definition getitem (l : list float) (i : nat) : M float :=
  match l !! i with
  | Some x => mret x
  | None => raise IndexError
  end.

(** [slicer.mc.<method>]: the attribute lookups before a method call. *)
Definition slicer_mc (method : string) : M MyCobot :=
  slot ← gets mc;
  match slot with
  | McUnset => raise (AttributeError "mc")
  | McNone => raise (AttributeError method)
  | McObj dev => mret dev
  end.

Definition GetFirstNodeByName (name : string) : M (option Node) :=
  emit (E_GetFirstNodeByName name);;
  gets (fun e => firstNodeByName name (mrmlScene e)).

Definition GetFirstNodeByClass (cls : string) : M (option Node) :=
  emit (E_GetFirstNodeByClass cls);;
  gets (fun e => firstNodeByClass cls (mrmlScene e)).

Definition AddNewNodeByClass (cls name : string) : M Node :=
  let n := {| node_class := cls; node_name := name |} in
  emit (E_AddNewNodeByClass cls name);;
  modify (fun e => set_mrmlScene (mrmlScene e ++ [n]) e);;
  mret n.

(** [self._defaultCenterAngles] (line 95). *)
Definition _defaultCenterAngles : list float := [0; -28; -135; 76; 5; 45]%float.

(** ** Concrete situations *)

Definition arm_connected : MyCobot :=
  {| joint_angles := [0; -28; -135; 76; 5; 45]%float; controller_connected := true |}.

Definition arm_unplugged : MyCobot :=
  {| joint_angles := [0; -28; -135; 76; 5; 45]%float; controller_connected := false |}.

Definition image_node : Node :=
  {| node_class := "vtkMRMLScalarVolumeNode"; node_name := "Image_Reference" |}.

Definition robot_base_node : Node :=
  {| node_class := "vtkMRMLTransformNode"; node_name := "ProbeHolderToRobotBase" |}.

(** The widget after [setup] (factory centre pose, sliders at their
    defaults), with the given arm slot, publisher flag, live-update flag
    and scene. *)
Definition situation (slot : McSlot) (active live : bool) (sc : Scene) : Env :=
  {| mc := slot;
     updateProbeHolderToRobotBaseTransformActive := active;
     updateProbeToRobotBaseTransformActive := active;
     parameterNode :=
       {| imageThreshold := 100; speed := 5; angleRange := 30; invertThreshold := false;
          centerAngles := _defaultCenterAngles; liveUpdates := live |};
     speedSlider := 5;
     angleRangeSlider := 30;
     mrmlScene := sc;
     volumereslicedriver_logic := true;
     processed := 0 |}.

(** A host with nothing pending, and a kinematics that answers one fixed
    pose (the first Cartesian target of [drivemycobot.py]). *)
Definition idle_host (e : Env) : Env := e.

(** A host that has the widget's [cleanup] pending (lines 153-156): it
    clears the publisher flag. *)
Definition cleanup (e : Env) : Env :=
  {| mc := mc e;
     updateProbeHolderToRobotBaseTransformActive := false;
     updateProbeToRobotBaseTransformActive := updateProbeToRobotBaseTransformActive e;
     parameterNode := parameterNode e;
     speedSlider := speedSlider e;
     angleRangeSlider := angleRangeSlider e;
     mrmlScene := mrmlScene e;
     volumereslicedriver_logic := volumereslicedriver_logic e;
     processed := processed e |}.

Definition fixed_pose (angles : list float) : list float :=
  [150; 0; 80; 175; 0; -45]%float.

(** The assignments to [slicer.mc] and to the publisher flag. *)
Definition set_mc (slot : McSlot) (e : Env) : Env :=
  {| mc := slot;
     updateProbeHolderToRobotBaseTransformActive := updateProbeHolderToRobotBaseTransformActive e;
     updateProbeToRobotBaseTransformActive := updateProbeToRobotBaseTransformActive e;
     parameterNode := parameterNode e;
     speedSlider := speedSlider e;
     angleRangeSlider := angleRangeSlider e;
     mrmlScene := mrmlScene e;
     volumereslicedriver_logic := volumereslicedriver_logic e;
     processed := processed e |}.

Definition set_active (b : bool) (e : Env) : Env :=
  {| mc := mc e;
     updateProbeHolderToRobotBaseTransformActive := b;
     updateProbeToRobotBaseTransformActive := updateProbeToRobotBaseTransformActive e;
     parameterNode := parameterNode e;
     speedSlider := speedSlider e;
     angleRangeSlider := angleRangeSlider e;
     mrmlScene := mrmlScene e;
     volumereslicedriver_logic := volumereslicedriver_logic e;
     processed := processed e |}.

(** A kinematics that answers a pose of two components only. *)
Definition short_pose (angles : list float) : list float :=
  [150; 0]%float.

(** A host in which the controller stops answering during one turn and a
    pending disconnect drops the arm object during the next. *)
Definition unplug_then_disconnect (e : Env) : Env :=
  match mc e with
  | McObj dev =>
      if controller_connected dev
      then set_mc (McObj arm_unplugged) e
      else set_active false (set_mc McNone e)
  | _ => e
  end.

(** The widget with a stored centre of three angles only. *)
Definition short_centre : Env :=
  let e := situation (McObj arm_connected) false false [] in
  set_parameterNode (set_centerAngles [0; -28; -135]%float (parameterNode e)) e.

(** Case analysis on membership in an explicit list. *)
Ltac in_cases H :=
  repeat (destruct H as [H | H]; [try discriminate H | ]); try contradiction H.

Section Handlers.

(** The arm library's forward kinematics, [angles_to_coords]. *)
Variable angles_to_coords : list float -> list float.

(** What the host does to the globals while [slicer.app.processEvents()]
    runs its pending events (it sees the number of earlier calls in
    [processed], so it may act differently each time). *)
Variable processEvents : Env -> Env.

Definition slicer_app_processEvents : M unit :=
  emit E_processEvents;;
  modify (fun e => let e' := processEvents e in set_processed (S (processed e)) e').

(** *** Sweep control (lines 247-303) *)

Definition _moveByAngle (angle : float) (waitToArrive : bool) (spd : option Z) : M unit :=
  center ← gets (fun e => centerAngles (parameterNode e));
  let angles := center in
  a0 ← getitem angles 0;
  let angles := <[0%nat := (a0 + angle)%float]> angles in
  a5 ← getitem angles 5;
  let angles := <[5%nat := (a5 + angle)%float]> angles in
  spd ← match spd with
        | Some s => mret s
        | None => v ← gets speedSlider; lift (py_int v)
        end;
  if waitToArrive
  then slicer_mc "sync_send_angles";; emit (E_sync_send_angles angles spd)
  else slicer_mc "send_angles";; emit (E_send_angles angles spd).

Definition onStartButton (waitToArrive : bool) (spd : option Z) : M unit :=
  v ← gets angleRangeSlider;
  _moveByAngle (- v / 2)%float waitToArrive spd.

Definition onCenterButton (waitToArrive : bool) (spd : option Z) : M unit :=
  _moveByAngle 0%float waitToArrive spd.

Definition onEndButton (waitToArrive : bool) (spd : option Z) : M unit :=
  v ← gets angleRangeSlider;
  _moveByAngle (v / 2)%float waitToArrive spd.

Definition onHomeButton : M unit :=
  slicer_mc "send_angles";;
  emit (E_send_angles [0; 0; 0; 0; 0; 0]%float 15).

Definition onSetAsCenterButton : M unit :=
  dev ← slicer_mc "get_angles";
  emit E_get_angles;;
  modify (fun e => set_parameterNode (set_centerAngles (joint_angles dev) (parameterNode e)) e).

Definition onResetCenterToDefaultButton : M unit :=
  modify (fun e => set_parameterNode (set_centerAngles _defaultCenterAngles (parameterNode e)) e);;
  onCenterButton false None.

Definition onFlyButton : M unit :=
  dev ← slicer_mc "get_angles";
  emit E_get_angles;;
  let angles := joint_angles dev in
  slicer_mc "angles_to_coords";;
  emit (E_angles_to_coords angles);;
  let coords := angles_to_coords angles in
  z ← getitem coords 2;
  let coords := <[2%nat := (z + 5)%float]> coords in
  slicer_mc "send_coords";;
  emit (E_send_coords coords 10 0).

Definition onLandButton : M unit :=
  dev ← slicer_mc "get_angles";
  emit E_get_angles;;
  let angles := joint_angles dev in
  slicer_mc "angles_to_coords";;
  emit (E_angles_to_coords angles);;
  let coords := angles_to_coords angles in
  z ← getitem coords 2;
  let coords := <[2%nat := (z - 5)%float]> coords in
  slicer_mc "send_coords";;
  emit (E_send_coords coords 10 0).

(** *** The pose publisher (lines 305-325) *)

(** The names bound at module level in [RobotUltrasound.py]: its imports
    (the star import brings the four [ScriptedLoadableModule*] classes) and
    its five classes.  Methods are attributes of their class, not module
    globals. *)
Definition module_globals : list string :=
  [ "copy"; "logging"; "os"; "Annotated"; "Optional"; "qt"; "vtk"; "slicer";
    "_"; "translate";
    "ScriptedLoadableModule"; "ScriptedLoadableModuleWidget";
    "ScriptedLoadableModuleLogic"; "ScriptedLoadableModuleTest";
    "VTKObservationMixin"; "parameterNodeWrapper"; "WithinRange";
    "vtkMRMLScalarVolumeNode";
    "RobotUltrasound"; "RobotUltrasoundParameterNode"; "RobotUltrasoundWidget";
    "RobotUltrasoundLogic"; "RobotUltrasoundTest" ].

(** Evaluating a bare name inside a method: a module global, else
    [NameError]. *)
Definition load_global (name : string) : M unit :=
  if existsb (String.eqb name) module_globals then mret tt else raise (NameError name).

(** [not hasattr(slicer, 'mc') or not slicer.mc or
    not slicer.mc.is_controller_connected()], left to right. *)
Definition mc_not_connected : M bool :=
  slot ← gets mc;
  match slot with
  | McUnset => mret true
  | McNone => mret true
  | McObj dev => emit E_is_controller_connected;; mret (negb (controller_connected dev))
  end.

Definition updateProbeHolderToRobotBaseTransform : M unit :=
  nc ← mc_not_connected;
  (if nc : bool then
     active ← gets updateProbeHolderToRobotBaseTransformActive;
     if active : bool then
       (* the callback is written as a bare name, without [self.] *)
       load_global "updateProbeHolderToRobotBaseTransform";;
       emit (E_singleShot 1000 cb_updateProbeHolderToRobotBaseTransform)
     else mret tt
   else mret tt);;
  (* no return: control continues below in either case *)
  node ← GetFirstNodeByName "ProbeHolderToRobotBase";
  match node with
  | Some _ => mret tt
  | None => AddNewNodeByClass "vtkMRMLTransformNode" "ProbeHolderToRobotBase";; mret tt
  end;;
  dev ← slicer_mc "get_angles";
  emit E_get_angles;;
  let angles := joint_angles dev in
  slicer_mc "angles_to_coords";;
  emit (E_angles_to_coords angles);;
  let position := angles_to_coords angles in
  let matrix := vtkMatrix4x4 in
  p0 ← getitem position 0;
  let matrix := SetElement 0 3 p0 matrix in
  p1 ← getitem position 1;
  let matrix := SetElement 1 3 p1 matrix in
  p2 ← getitem position 2;
  let matrix := SetElement 2 3 p2 matrix in
  emit (E_SetMatrixTransformToParent "ProbeHolderToRobotBase" (T_matrix matrix));;
  emit (E_Modified "ProbeHolderToRobotBase");;
  slicer_app_processEvents;;
  active ← gets updateProbeHolderToRobotBaseTransformActive;
  if active : bool
  then emit (E_singleShot 0 cb_updateProbeHolderToRobotBaseTransform)
  else mret tt.

(** [updateProbeToRobotBaseTransform] of [tests/drivemycobot.py] (lines
    59-76); [dev] is the script's global [mc], and the function's own name
    is a global of the script. *)
Definition updateProbeToRobotBaseTransform (dev : MyCobot) : M unit :=
  node ← GetFirstNodeByName "ProbeToRobotBase";
  match node with
  | Some _ => mret tt
  | None => AddNewNodeByClass "vtkMRMLTransformNode" "ProbeToRobotBase";; mret tt
  end;;
  emit E_get_angles;;
  let angles := joint_angles dev in
  emit (E_angles_to_coords angles);;
  let position := angles_to_coords angles in
  let matrix := vtkMatrix4x4 in
  p0 ← getitem position 0;
  let matrix := SetElement 0 3 p0 matrix in
  p1 ← getitem position 1;
  let matrix := SetElement 1 3 p1 matrix in
  p2 ← getitem position 2;
  let matrix := SetElement 2 3 p2 matrix in
  emit (E_SetMatrixTransformToParent "ProbeToRobotBase" (T_matrix matrix));;
  emit (E_Modified "ProbeToRobotBase");;
  slicer_app_processEvents;;
  active ← gets updateProbeToRobotBaseTransformActive;
  if active : bool
  then emit (E_singleShot 100 cb_updateProbeToRobotBaseTransform)
  else mret tt.

Definition is_singleShot (ev : Event) : bool :=
  match ev with
  | E_singleShot _ _ => true
  | _ => false
  end.

Definition is_emission (ev : Event) : bool :=
  match ev with
  | E_SetMatrixTransformToParent _ _ => true
  | _ => false
  end.

(** The host's single-shot timer.  A call of [QTimer.singleShot] makes the
    host run the callback once more, after it has handled its other
    pending events; an iteration that raises or schedules nothing ends the
    chain.  [fuel] bounds the number of iterations looked at. *)
Fixpoint timer_chain (fuel : nat) (e : Env) : Env * list Event :=
  match fuel with
  | O => (e, [])
  | S n =>
      let '(_, e1, t1) := updateProbeHolderToRobotBaseTransform e in
      if existsb is_singleShot t1
      then let '(e2, t2) := timer_chain n (processEvents e1) in (e2, t1 ++ t2)
      else (e1, t1)
  end.

(** *** Volume reconstruction (lines 327-441) *)

(** The loop [for i in range(n)] of lines 340-345, for [n >= 1]: the
    value left in [usImageNode] ([Some] after a [break]). *)
Fixpoint waitForImage (n : nat) : M (option Node) :=
  match n with
  | O => mret None
  | S k =>
      usImageNode ← GetFirstNodeByName "Image_Reference";
      match usImageNode with
      | Some nd => mret (Some nd)
      | None =>
          slicer_app_processEvents;;
          emit (E_sleep 0.1);;
          waitForImage k
      end
  end.

(** Lines 351-438: what the handler does once the image has arrived. *)
Definition configureAndStartReconstruction (usImageNode : Node) : M unit :=
  live ← gets (fun e => liveUpdates (parameterNode e));
  (if live : bool then
     emit (E_SetBackgroundVolumeID (node_name usImageNode));;
     emit (E_setSliceVisible true);;
     emit E_FitSliceToBackground
   else
     emit E_setSliceViewerLayers_background_None;;
     emit (E_setSliceVisible false));;
  (* Set up volume reslice driver. *)
  resliceLogic ← gets volumereslicedriver_logic;
  (if resliceLogic : bool then
     emit E_SetSliceResolutionMode_MatchVolumes;;
     emit (E_SetDriverForSlice (node_name usImageNode));;
     emit (E_SetModeForSlice 6);;
     emit (E_SetFlipForSlice true);;
     emit (E_SetRotationForSlice 180);;
     emit E_FitSliceToAll
   else
     emit (E_logging_warning "Logic not found for Volume Reslice Driver"));;
  found ← GetFirstNodeByName "ImageToProbeHolder";
  imageToProbeHolderTransform ←
    match found with
    | Some nd => mret nd
    | None => AddNewNodeByClass "vtkMRMLLinearTransformNode" "ImageToProbeHolder"
    end;
  emit (E_SetMatrixTransformToParent (node_name imageToProbeHolderTransform)
          (T_ops [RotateX 90; Scale 0.64 0.64 0.64]));;
  probeHolderToRobotBaseTransform ← GetFirstNodeByName "ProbeHolderToRobotBase";
  match probeHolderToRobotBaseTransform with
  | None => emit (E_errorDisplay "Robot position is not found. Connect to the robot first.")
  | Some probeHolderToRobotBaseTransform =>
    emit (E_SetAndObserveTransformNodeID (node_name usImageNode)
            (node_name imageToProbeHolderTransform));;
    emit (E_SetAndObserveTransformNodeID (node_name imageToProbeHolderTransform)
            (node_name probeHolderToRobotBaseTransform));;
    (* Set up volume reconstruction *)
    found ← GetFirstNodeByName "VolumeReconstruction";
    match found with
    | Some _ => mret tt
    | None =>
        AddNewNodeByClass "vtkMRMLVolumeReconstructionNode" "VolumeReconstruction";; mret tt
    end;;
    emit (E_SetLiveVolumeReconstruction false);;
    found ← GetFirstNodeByName "VolumeReconstructionROI";
    match found with
    | Some _ => mret tt
    | None =>
        AddNewNodeByClass "vtkMRMLMarkupsROINode" "VolumeReconstructionROI";;
        emit (E_CreateDefaultDisplayNodes "VolumeReconstructionROI");;
        emit (E_SetDisplayVisibility "VolumeReconstructionROI" false)
    end;;
    found ← GetFirstNodeByName "Volume_Reference";
    match found with
    | Some _ => mret tt
    | None =>
        AddNewNodeByClass "vtkMRMLScalarVolumeNode" "Volume_Reference";;
        emit (E_CreateDefaultDisplayNodes "Volume_Reference")
    end;;
    emit (E_SetLiveVolumeReconstruction true);;
    input ← GetFirstNodeByName "Image_Reference";
    emit (E_SetAndObserveInputVolumeNode (option_map node_name input));;
    emit (E_SetAndObserveOutputVolumeNode "Volume_Reference");;
    emit (E_SetAndObserveInputROINode "VolumeReconstructionROI");;
    emit (E_SetFillHoles true);;
    emit (E_SetLiveUpdateIntervalSeconds (if live : bool then 1 else 1000));;
    let spacing := (if live : bool then 1.0 else 0.5)%float in
    emit (E_SetOutputSpacing spacing spacing spacing);;
    onStartButton true (Some 15);;
    slicer_mc "angles_to_coords";;
    emit (E_angles_to_coords [0; 0; 0; 0; 0; 0]%float);;
    let centerPosition := angles_to_coords [0; 0; 0; 0; 0; 0]%float in
    c0 ← getitem centerPosition 0;
    c1 ← getitem centerPosition 1;
    c2 ← getitem centerPosition 2;
    emit (E_SetXYZ (c0 + 50) (c1 + 50) (c2 + 40))%float;;
    emit (E_SetRadiusXYZ (80 / 2) (120 / 2) (60 / 2))%float;;
    emit E_ResetVolumeReconstruction;;
    emit (E_CreateDefaultVolumeRenderingNodes "Volume_Reference");;
    emit (E_vrDisplay_SetVisibility live);;
    emit (E_CopyVolumeProperty_preset "MR-Default");;
    emit E_StartLiveVolumeReconstruction
  end.

Definition onResetVolumeReconstructionButton : M unit :=
  connectorNode ← GetFirstNodeByClass "vtkMRMLIGTLConnectorNode";
  match connectorNode with
  | Some _ => emit E_connector_Stop
  | None =>
      (* AddNewNodeByClass followed by SetName *)
      AddNewNodeByClass "vtkMRMLIGTLConnectorNode" "RobotUltrasoundConnector";; mret tt
  end;;
  emit (E_connector_SetTypeClient "localhost" 18944);;
  emit E_connector_Start;;
  (* Wait for the ultrasound image to be received *)
  usImageNode ← waitForImage 30;
  match usImageNode with
  | None => emit (E_errorDisplay "Failed to receive ultrasound image")
  | Some usImageNode => configureAndStartReconstruction usImageNode
  end.

Definition onStartVolumeReconstructionButton : M unit :=
  onEndButton false None.

(** *** Reading a call log *)

Definition is_poll (ev : Event) : bool :=
  match ev with
  | E_GetFirstNodeByName "Image_Reference" | E_processEvents => true
  | E_sleep s => PrimFloat.Leibniz.eqb s 0.1
  | _ => false
  end.

Definition is_sleep (ev : Event) : bool :=
  match ev with
  | E_sleep _ => true
  | _ => false
  end.

Definition is_errorDisplay (ev : Event) : bool :=
  match ev with
  | E_errorDisplay _ => true
  | _ => false
  end.

Definition is_interval (ev : Event) : bool :=
  match ev with
  | E_SetLiveUpdateIntervalSeconds _ => true
  | _ => false
  end.

Definition is_start (ev : Event) : bool :=
  match ev with
  | E_StartLiveVolumeReconstruction => true
  | _ => false
  end.

(** Reconstruction settings of spacing and interval, arm moves, and the
    start of the live reconstruction. *)
Definition is_loud (ev : Event) : bool :=
  match ev with
  | E_SetLiveUpdateIntervalSeconds _ | E_SetOutputSpacing _ _ _
  | E_sync_send_angles _ _ | E_send_angles _ _ | E_send_coords _ _ _
  | E_StartLiveVolumeReconstruction => true
  | _ => false
  end.

(** The log up to the first call that satisfies [p], and from it on. *)
Fixpoint before (p : Event -> bool) (t : list Event) : list Event :=
  match t with
  | [] => []
  | ev :: t' => if p ev then [] else ev :: before p t'
  end.

Fixpoint from (p : Event -> bool) (t : list Event) : list Event :=
  match t with
  | [] => []
  | ev :: t' => if p ev then ev :: t' else from p t'
  end.

Definition is_arm_move (ev : Event) : bool :=
  match ev with
  | E_sync_send_angles _ _ | E_send_angles _ _ | E_send_coords _ _ _ => true
  | _ => false
  end.

(** Parent chain, region of interest and output spacing. *)
Definition is_geometry (ev : Event) : bool :=
  match ev with
  | E_SetMatrixTransformToParent _ _ | E_SetAndObserveTransformNodeID _ _
  | E_SetXYZ _ _ _ | E_SetRadiusXYZ _ _ _ | E_SetOutputSpacing _ _ _ => true
  | _ => false
  end.

(** One unsuccessful round of the wait loop (lines 341-345). *)
Definition poll : list Event :=
  [E_GetFirstNodeByName "Image_Reference"; E_processEvents; E_sleep 0.1].

(** The two settings of lines 418 and 420, by the live-update flag. *)
Definition liveUpdateIntervalSeconds (live : bool) : Z := if live then 1 else 1000.

Definition outputSpacing (live : bool) : float := if live then 1.0 else 0.5.

Definition is_move_or_start (ev : Event) : bool := is_arm_move ev || is_start ev.

(** A value outside the closed range [[lo, hi]]. *)
Definition outside (lo hi v : float) : Prop :=
  (v <? lo)%float = true \/ (hi <? v)%float = true.

Definition is_noisy (ev : Event) : bool := is_loud ev || is_errorDisplay ev.

(** The globals a step leaves alone when it only touches the scene. *)
Definition frame (e e1 : Env) : Prop :=
  mc e1 = mc e
  /\ parameterNode e1 = parameterNode e
  /\ speedSlider e1 = speedSlider e
  /\ angleRangeSlider e1 = angleRangeSlider e.

(** A step that returns, keeps the frame and makes no noisy call. *)
Definition quiet {A : Type} (m : M A) : Prop :=
  forall e, exists a e1 t,
    m e = (Ok a, e1, t) /\ frame e e1 /\ existsb is_noisy t = false.

(** The identity matrix with translation column [(x, y, z)]. *)
Definition translation (x y z : float) : Matrix4x4 :=
  [ [1; 0; 0; x];
    [0; 1; 0; y];
    [0; 0; 1; z];
    [0; 0; 0; 1] ]%float.

(** Lines 418-438 of a run that gets to the end. *)
Definition reconstruction_tail (live : bool) (target : list float) (x y z : float)
  : list Event :=
  [ E_SetLiveUpdateIntervalSeconds (liveUpdateIntervalSeconds live);
    E_SetOutputSpacing (outputSpacing live) (outputSpacing live) (outputSpacing live);
    E_sync_send_angles target 15;
    E_angles_to_coords [0; 0; 0; 0; 0; 0];
    E_SetXYZ (x + 50) (y + 50) (z + 40);
    E_SetRadiusXYZ 40 60 30;
    E_ResetVolumeReconstruction;
    E_CreateDefaultVolumeRenderingNodes "Volume_Reference";
    E_vrDisplay_SetVisibility live;
    E_CopyVolumeProperty_preset "MR-Default";
    E_StartLiveVolumeReconstruction ]%float.

Definition start_target (e : Env) (target : list float) : Prop :=
  let center := centerAngles (parameterNode e) in
  let a := (- angleRangeSlider e / 2)%float in
  exists c0 c5,
    center !! 0%nat = Some c0
    /\ center !! 5%nat = Some c5
    /\ target = <[5%nat := (c5 + a)%float]> (<[0%nat := (c0 + a)%float]> center).

(** How a run of the configuration part looks, for the globals [e] it
    started from: quiet up to the setting of the update interval, and from
    there nothing (an early return after an error display), a proper
    beginning of the tail (an exception), or the whole tail. *)
Definition reconstruction_shape (e : Env) (r : Res unit * Env * list Event) : Prop :=
  let live := liveUpdates (parameterNode e) in
  frame e (final r)
  /\ existsb is_loud (before is_interval (calls r)) = false
  /\ ( (result r = Ok tt
        /\ existsb is_errorDisplay (calls r) = true
        /\ from is_interval (calls r) = [])
     \/ ((exists x, result r = Raise x)
        /\ exists target x y z,
             from is_interval (calls r) = take 2 (reconstruction_tail live target x y z)
             \/ from is_interval (calls r) = take 4 (reconstruction_tail live target x y z))
     \/ (result r = Ok tt
        /\ existsb is_errorDisplay (calls r) = false
        /\ exists target x y z,
             start_target e target
             /\ from is_interval (calls r) = reconstruction_tail live target x y z) ).

(** *** Connecting and disconnecting (lines 215-251, 280-291) *)

(** An exception of the handlers above, or any other exception derived
    from [Exception] (an import or a serial-port error), known by its
    class name. *)
Inductive PyExn : Type :=
| Py (x : Exn)
| Foreign (cls : string).

Inductive WRes (A : Type) : Type :=
| WOk (a : A)
| WRaise (x : PyExn).
#[global] Arguments WOk {A} a.
#[global] Arguments WRaise {A} x.

(** Calls of the connection handlers and of the scripts: those of [Event],
    and the status label, the arm's connection and servos, the timed
    message box and the console. *)
Inductive WidgetCall : Type :=
| W_host (ev : Event)
| W_label_text (html : string)
| W_label_toolTip (text : string)
| W_label_toolTip_str (x : PyExn)          (* toolTip = str(e) *)
| W_print_exc (x : PyExn)                  (* traceback.print_exc() *)
| W_MyCobot (port : string) (baud : Z)     (* MyCobot('COM5', 115200) *)
| W_get_system_version
| W_close
| W_stop
| W_release_all_servos
| W_focus_all_servos
| W_delayDisplay (msg : string) (msec : Z)
| W_print (m : Matrix4x4)
| W_singleShot_moveRobot (msec : Z).

Definition W (A : Type) : Type := Env -> WRes A * Env * list WidgetCall.

#[global] Instance W_ret : MRet W := fun A a e => (WOk a, e, []).

#[global] Instance W_bind : MBind W := fun A B f m e =>
  match m e with
  | (WOk a, e1, t1) => let '(r, e2, t2) := f a e1 in (r, e2, t1 ++ t2)
  | (WRaise x, e1, t1) => (WRaise x, e1, t1)
  end.

Definition wemit (c : WidgetCall) : W unit := fun e => (WOk tt, e, [c]).
Definition wgets {A : Type} (f : Env -> A) : W A := fun e => (WOk (f e), e, []).
Definition wmodify (f : Env -> Env) : W unit := fun e => (WOk tt, f e, []).
Definition wlift {A : Type} (r : WRes A) : W A := fun e => (r, e, []).

(** A handler of the other kind, run inside these. *)
Definition liftW {A : Type} (m : M A) : W A := fun e =>
  match m e with
  | (Ok a, e1, t) => (WOk a, e1, map W_host t)
  | (Raise x, e1, t) => (WRaise (Py x), e1, map W_host t)
  end.

(** [try: body  except Exception as e: handler(e)]. *)
Definition try_except (body : W unit) (handler : PyExn -> W unit) : W unit := fun e =>
  match body e with
  | (WOk a, e1, t1) => (WOk a, e1, t1)
  | (WRaise x, e1, t1) => let '(r, e2, t2) := handler x e1 in (r, e2, t1 ++ t2)
  end.

Definition wresult {A : Type} (x : WRes A * Env * list WidgetCall) : WRes A := fst (fst x).
Definition wfinal {A : Type} (x : WRes A * Env * list WidgetCall) : Env := snd (fst x).
Definition wcalls {A : Type} (x : WRes A * Env * list WidgetCall) : list WidgetCall := snd x.

(** What the connection attempt meets outside the program: whether the
    import of the arm library fails, what constructing the arm object on
    the serial port gives, and the version text the arm answers. *)
Variable pymycobot_import : option PyExn.
Variable MyCobot_new : WRes MyCobot.
Variable get_system_version : MyCobot -> string.

Definition onConnectButton : W unit :=
  wemit (W_label_text "<font color='yellow'>Status: Connecting...</font>");;
  wemit (W_label_toolTip "");;
  liftW slicer_app_processEvents;;
  try_except
    (match pymycobot_import with
     | Some x => wlift (WRaise x)
     | None => mret tt
     end;;
     slot ← wgets mc;
     match slot with
     | McObj _ => mret tt
     | _ =>
         wemit (W_MyCobot "COM5" 115200);;
         dev ← wlift MyCobot_new;
         wmodify (set_mc (McObj dev))
     end;;
     dev ← liftW (slicer_mc "get_system_version");
     wemit W_get_system_version;;
     let version := get_system_version dev in
     (* green text *)
     wemit (W_label_text "<font color='green'>Status: Connected.</font>");;
     wemit (W_label_toolTip ("System version: " ++ version)%string);;
     (* Start robot position updates *)
     wmodify (set_active true);;
     liftW updateProbeHolderToRobotBaseTransform)
    (fun x =>
       wemit (W_print_exc x);;
       wemit (W_label_text "<font color='red'>Status: Connection failed.</font>");;
       wemit (W_label_toolTip_str x);;
       wmodify (set_mc McNone)).

Definition onDisconnectButton : W unit :=
  slot ← wgets mc;
  match slot with
  | McObj _ => wemit W_close
  | _ => mret tt
  end;;
  wmodify (set_mc McNone);;
  wmodify (set_active false);;
  wemit (W_label_text "<font color='gray'>Status: Disconnected.</font>");;
  wemit (W_label_toolTip "").

Definition onStopButton : W unit :=
  liftW (slicer_mc "stop");;
  wemit W_stop.

(** [slicer.util.delayDisplay(msg, msec)]: the message box stays up for
    [msec] while the host handles its events. *)
Definition delayDisplay (msg : string) (msec : Z) : W unit :=
  wemit (W_delayDisplay msg msec);;
  wmodify processEvents.

Definition onRelaxButton : W unit :=
  (* wait 3 seconds, to give time the user to get hold of the robot *)
  delayDisplay "Relax the arm in 3 seconds..." 3000;;
  liftW (slicer_mc "release_all_servos");;
  wemit W_release_all_servos.

Definition onSetCenterManuallyButton : W unit :=
  delayDisplay "Relax the arm in 3 seconds..." 3000;;
  liftW (slicer_mc "release_all_servos");;
  wemit W_release_all_servos;;
  delayDisplay "Position the arm for 5 seconds..." 5000;;
  liftW (slicer_mc "focus_all_servos");;
  wemit W_focus_all_servos;;
  delayDisplay "Arm position is locked" 2000.

(** *** The script [drivemycobot.py] (lines 16-57; [tests/] lines 41-56) *)

(** [t[i]] for a Python index: a negative one counts from the end. *)
Definition py_index {A : Type} (t : list A) (i : Z) : option A :=
  if 0 <=? i then t !! Z.to_nat i
  else if 0 <=? Z.of_nat (length t) + i then t !! Z.to_nat (Z.of_nat (length t) + i)
  else None.

(** The script's two attributes on [slicer]. *)
Record ScriptGlobals : Type := {
  slicer_angles : list (list float);
  slicer_angleIndex : Z
}.

Definition moveRobot (g : ScriptGlobals) : WRes unit * ScriptGlobals * list WidgetCall :=
  match py_index (slicer_angles g) (slicer_angleIndex g) with
  | None => (WRaise (Py IndexError), g, [])
  | Some angles =>
      let g' := {| slicer_angles := slicer_angles g;
                   slicer_angleIndex := slicer_angleIndex g + 1 |} in
      (WOk tt, g',
       W_host (E_send_angles angles 20)
       :: (if Z.of_nat (length (slicer_angles g')) <? slicer_angleIndex g'
           then [W_singleShot_moveRobot 5000]
           else []))
  end.

(** [updateProbeToRobotBaseTransform] of [drivemycobot.py] (lines 33-51):
    it looks for a node named LinearTransform but creates one named
    ProbeToRobotBase; [dev] is the script's global [mc]. *)
Definition drivemycobot_updateProbeToRobotBaseTransform (dev : MyCobot) : W unit :=
  found ← liftW (GetFirstNodeByName "LinearTransform");
  probeToRobotBaseTransform ←
    match found with
    | Some nd => mret nd
    | None => liftW (AddNewNodeByClass "vtkMRMLTransformNode" "ProbeToRobotBase")
    end;
  wemit (W_host E_get_angles);;
  let angles := joint_angles dev in
  wemit (W_host (E_angles_to_coords angles));;
  let position := angles_to_coords angles in
  let matrix := vtkMatrix4x4 in
  p0 ← liftW (getitem position 0);
  let matrix := SetElement 0 3 p0 matrix in
  p1 ← liftW (getitem position 1);
  let matrix := SetElement 1 3 p1 matrix in
  p2 ← liftW (getitem position 2);
  let matrix := SetElement 2 3 p2 matrix in
  wemit (W_print matrix);;
  wemit (W_host (E_SetMatrixTransformToParent (node_name probeToRobotBaseTransform)
                   (T_matrix matrix)));;
  wemit (W_host (E_Modified (node_name probeToRobotBaseTransform)));;
  liftW slicer_app_processEvents;;
  active ← wgets updateProbeToRobotBaseTransformActive;
  if active : bool
  then wemit (W_host (E_singleShot 1000 cb_updateProbeToRobotBaseTransform))
  else mret tt.

Definition is_W_singleShot (c : WidgetCall) : bool :=
  match c with
  | W_singleShot_moveRobot _ | W_host (E_singleShot _ _) => true
  | _ => false
  end.

Definition is_print_exc (c : WidgetCall) : bool :=
  match c with
  | W_print_exc _ => true
  | _ => false
  end.

(** An arm object whose controller answers and whose pose conversion gives
    at least three components. *)
Definition arm_ready (e : Env) : Prop :=
  exists dev,
    mc e = McObj dev
    /\ controller_connected dev = true
    /\ (3 <= length (angles_to_coords (joint_angles dev)))%nat.

Definition ProbeHolderToRobotBase_node : Node :=
  {| node_class := "vtkMRMLTransformNode"; node_name := "ProbeHolderToRobotBase" |}.

Definition ProbeToRobotBase_node : Node :=
  {| node_class := "vtkMRMLTransformNode"; node_name := "ProbeToRobotBase" |}.

(** ** Properties *)

(** Running a handler, one step at a time. *)
Lemma run_bind {A B : Type} (m : M A) (f : A -> M B) (e : Env) :
  (m ≫= f) e =
  match m e with
  | (Ok a, e1, t1) => let '(r, e2, t2) := f a e1 in (r, e2, t1 ++ t2)
  | (Raise x, e1, t1) => (Raise x, e1, t1)
  end.
Proof. reflexivity. Qed.

Ltac run :=
  repeat first
    [ rewrite run_bind
    | progress cbn [emit gets modify raise lift mret M_ret getitem fst snd app
                    lookup list_lookup insert list_insert] ].

(** Symbolic execution of a handler on an environment given field by
    field: step through the binds, compute, and split on every test the
    handler makes on its globals. *)
Ltac exec_step :=
  first
    [ rewrite run_bind
    | progress cbn
    | match goal with
      | |- context [match ?x with _ => _ end] =>
          lazymatch type of x with
          | (_ * _)%type => fail
          | Res _ => fail
          | _ => destruct x eqn:?
          end
      end ].

Ltac exec := repeat exec_step.

(** The sweep command for a centre pose of six axes. *)
Lemma moveByAngle_six
    (e : Env) (dev : MyCobot) (c0 c1 c2 c3 c4 c5 a : float)
    (wait : bool) (spd : option Z) (s : Z) :
  centerAngles (parameterNode e) = [c0; c1; c2; c3; c4; c5] ->
  mc e = McObj dev ->
  match spd with Some s' => s' = s | None => py_int (speedSlider e) = Ok s end ->
  _moveByAngle a wait spd e
    = (Ok tt, e,
       [if wait
        then E_sync_send_angles [c0 + a; c1; c2; c3; c4; c5 + a]%float s
        else E_send_angles [c0 + a; c1; c2; c3; c4; c5 + a]%float s]).
Proof.
  intros Hc Hmc Hs.
  unfold _moveByAngle, slicer_mc. run. rewrite Hc. cbn.
  destruct spd as [s'|]; [subst s'|]; run; [|rewrite Hs]; cbn;
    destruct wait; run; rewrite Hmc; reflexivity.
Qed.

(** C1: for a six-element centre pose and any offset [a], the sweep
    command targets the centre with axis 0 and axis 5 each incremented by
    [a] and the other four axes unchanged; start uses [-angleRange/2] and
    end uses [+angleRange/2]; with centre [0,-28,-135,76,5,45] and range 30
    start commands [-15,-28,-135,76,5,30] and end [15,-28,-135,76,5,60]. *)
Theorem sweep_target_offsets_axes_0_and_5
    (e : Env) (dev : MyCobot) (c0 c1 c2 c3 c4 c5 a : float)
    (wait : bool) (spd : option Z) (s : Z) :
  centerAngles (parameterNode e) = [c0; c1; c2; c3; c4; c5] ->
  mc e = McObj dev ->
  match spd with Some s' => s' = s | None => py_int (speedSlider e) = Ok s end ->
  let command := fun target =>
    if wait then E_sync_send_angles target s else E_send_angles target s in
  _moveByAngle a wait spd e
    = (Ok tt, e, [command [c0 + a; c1; c2; c3; c4; c5 + a]%float])
  /\ onStartButton wait spd e = _moveByAngle (- angleRangeSlider e / 2)%float wait spd e
  /\ onEndButton wait spd e = _moveByAngle (angleRangeSlider e / 2)%float wait spd e
  /\ ([c0; c1; c2; c3; c4; c5] = [0; -28; -135; 76; 5; 45]%float ->
      angleRangeSlider e = 30%float ->
      calls (onStartButton wait spd e) = [command [-15; -28; -135; 76; 5; 30]%float]
      /\ calls (onEndButton wait spd e) = [command [15; -28; -135; 76; 5; 60]%float]).
Proof.
  intros Hc Hmc Hs command.
  pose proof (fun b => moveByAngle_six e dev c0 c1 c2 c3 c4 c5 b wait spd s Hc Hmc Hs)
    as Hmove.
  assert (Hcmd : forall tgt, (if wait then E_sync_send_angles tgt s else E_send_angles tgt s)
                             = command tgt) by reflexivity.
  split; [rewrite Hmove; reflexivity|].
  split; [unfold onStartButton; run; rewrite !Hmove; reflexivity|].
  split; [unfold onEndButton; run; rewrite !Hmove; reflexivity|].
  intros Hdef Hrange. injection Hdef as -> -> -> -> -> ->.
  unfold onStartButton, onEndButton. run. rewrite Hrange, !Hmove.
  split; reflexivity.
Qed.

(** C6: whatever centre pose is stored, resetCenterToDefault stores the
    factory pose [0,-28,-135,76,5,45] and at once issues center, so the
    command sent to the arm is exactly the factory six-tuple. *)
Theorem resetCenterToDefault_commands_factory_pose (e : Env) (dev : MyCobot) (s : Z) :
  mc e = McObj dev ->
  py_int (speedSlider e) = Ok s ->
  let r := onResetCenterToDefaultButton e in
  result r = Ok tt
  /\ centerAngles (parameterNode (final r)) = [0; -28; -135; 76; 5; 45]%float
  /\ calls r = [E_send_angles [0; -28; -135; 76; 5; 45]%float s].
Proof.
  intros Hmc Hs r. subst r.
  unfold onResetCenterToDefaultButton, onCenterButton. run.
  erewrite (moveByAngle_six _ dev 0 (-28) (-135) 76 5 45 0 false None s)%float;
    [ | reflexivity | exact Hmc | exact Hs ].
  repeat split.
Qed.

(** C9: fly and land take the arm's live joint angles, convert them to
    Cartesian coordinates, change only the z coordinate (by +5 for fly, by
    -5 for land) and command that; the stored centre pose plays no part. *)
Theorem fly_land_nudge_live_z
    (e : Env) (dev : MyCobot) (x y z : float) (rest center : list float) :
  mc e = McObj dev ->
  angles_to_coords (joint_angles dev) = x :: y :: z :: rest ->
  let e' := set_parameterNode (set_centerAngles center (parameterNode e)) e in
  let live := joint_angles dev in
  calls (onFlyButton e)
    = [E_get_angles; E_angles_to_coords live;
       E_send_coords (x :: y :: (z + 5)%float :: rest) 10 0]
  /\ calls (onLandButton e)
    = [E_get_angles; E_angles_to_coords live;
       E_send_coords (x :: y :: (z - 5)%float :: rest) 10 0]
  /\ calls (onFlyButton e') = calls (onFlyButton e)
  /\ calls (onLandButton e') = calls (onLandButton e).
Proof.
  intros Hmc Hxyz e' live.
  assert (Hfly : forall e0, mc e0 = McObj dev ->
            calls (onFlyButton e0)
            = [E_get_angles; E_angles_to_coords live;
               E_send_coords (x :: y :: (z + 5)%float :: rest) 10 0]).
  { intros e0 H0. unfold onFlyButton, slicer_mc.
    repeat first [ rewrite H0 | rewrite Hxyz | progress run ]. reflexivity. }
  assert (Hland : forall e0, mc e0 = McObj dev ->
            calls (onLandButton e0)
            = [E_get_angles; E_angles_to_coords live;
               E_send_coords (x :: y :: (z - 5)%float :: rest) 10 0]).
  { intros e0 H0. unfold onLandButton, slicer_mc.
    repeat first [ rewrite H0 | rewrite Hxyz | progress run ]. reflexivity. }
  rewrite (Hfly e Hmc), (Hland e Hmc), (Hfly e' Hmc), (Hland e' Hmc).
  repeat split.
Qed.

(** *** The pose publisher *)

Ltac unfold_publisher :=
  unfold updateProbeHolderToRobotBaseTransform, updateProbeToRobotBaseTransform,
    mc_not_connected, load_global, slicer_mc, getitem, GetFirstNodeByName,
    AddNewNodeByClass, slicer_app_processEvents.

(** An iteration that ends with the flag false has scheduled no timer. *)
Lemma inactive_iteration_schedules_nothing (e : Env) :
  updateProbeHolderToRobotBaseTransformActive
    (final (updateProbeHolderToRobotBaseTransform e)) = false ->
  existsb is_singleShot (calls (updateProbeHolderToRobotBaseTransform e)) = false.
Proof.
  destruct e as [slot act act' pn sp ar sc rl n].
  unfold_publisher. exec; congruence.
Qed.

(** An iteration emits at most one transform. *)
Lemma iteration_emits_at_most_once (e : Env) :
  (length (List.filter is_emission (calls (updateProbeHolderToRobotBaseTransform e))) <= 1)%nat.
Proof.
  destruct e as [slot act act' pn sp ar sc rl n].
  unfold_publisher. exec; lia.
Qed.

(** X1: the missing [return]: an inactive iteration on an arm whose
    controller is not connected still goes on to read the joint angles. *)
Lemma disconnected_iteration_falls_through (e : Env) (dev : MyCobot) :
  updateProbeHolderToRobotBaseTransformActive e = false ->
  mc e = McObj dev ->
  controller_connected dev = false ->
  In E_get_angles (calls (updateProbeHolderToRobotBaseTransform e)).
Proof.
  destruct e as [slot act act' pn sp ar sc rl n], dev as [ja cc]. cbn. intros -> -> ->.
  unfold_publisher. exec; auto 10.
Qed.

(** C3: an iteration that runs while the arm is not connected and the
    publisher is active does not schedule the 1000 ms retry: evaluating the
    callback's bare name raises NameError before [singleShot] is called.
    (It reads no angles and emits nothing only because it has raised.) *)
Theorem backoff_iteration_raises_NameError (e : Env) :
  updateProbeHolderToRobotBaseTransformActive e = true ->
  (mc e = McUnset \/ mc e = McNone
   \/ exists dev, mc e = McObj dev /\ controller_connected dev = false) ->
  let r := updateProbeHolderToRobotBaseTransform e in
  result r = Raise (NameError "updateProbeHolderToRobotBaseTransform")
  /\ final r = e
  /\ (forall ms cb, ~ In (E_singleShot ms cb) (calls r))
  /\ ~ In E_get_angles (calls r)
  /\ (forall node t, ~ In (E_SetMatrixTransformToParent node t) (calls r)).
Proof.
  intros Hact Hnc r. subst r.
  destruct e as [slot act act' pn sp ar sc rl n]. cbn in Hact, Hnc. subst act.
  unfold_publisher.
  destruct Hnc as [-> | [-> | ([ja cc] & -> & Hdev)]];
    [ | | cbn in Hdev; subst cc ];
    exec; repeat split; try (intros ? ? H); try intros H; in_cases H.
Qed.

(** C4: once the flag is false when an iteration completes, that iteration
    has scheduled no timer, so the chain of iterations ends there: however
    long it is watched, nothing runs after the in-flight iteration and at
    most its one transform is emitted. *)
Theorem inactive_publisher_never_reschedules (e : Env) (n : nat) :
  updateProbeHolderToRobotBaseTransformActive
    (final (updateProbeHolderToRobotBaseTransform e)) = false ->
  let r := updateProbeHolderToRobotBaseTransform e in
  (forall ms cb, ~ In (E_singleShot ms cb) (calls r))
  /\ timer_chain (S n) e = (final r, calls r)
  /\ (length (List.filter is_emission (snd (timer_chain (S n) e))) <= 1)%nat.
Proof.
  intros Hoff r.
  pose proof (inactive_iteration_schedules_nothing e Hoff) as Hnone.
  pose proof (iteration_emits_at_most_once e) as Hone.
  fold r in Hnone, Hone.
  assert (Hchain : timer_chain (S n) e = (final r, calls r)).
  { cbn [timer_chain]. fold r. destruct r as [[res e1] t1]. cbn in Hnone |- *.
    rewrite Hnone. reflexivity. }
  split; [| split; [exact Hchain | rewrite Hchain; exact Hone]].
  intros ms cb Hin.
  assert (existsb is_singleShot (calls r) = true) as Hsome.
  { apply existsb_exists. exists (E_singleShot ms cb). split; [exact Hin | reflexivity]. }
  congruence.
Qed.

(** The two publishers emit the same kind of matrix. *)
Lemma widget_publisher_matrix (e : Env) (node : string) (t : Transform) :
  In (E_SetMatrixTransformToParent node t)
     (calls (updateProbeHolderToRobotBaseTransform e)) ->
  exists dev x y z,
    mc e = McObj dev
    /\ angles_to_coords (joint_angles dev) !! 0%nat = Some x
    /\ angles_to_coords (joint_angles dev) !! 1%nat = Some y
    /\ angles_to_coords (joint_angles dev) !! 2%nat = Some z
    /\ t = T_matrix (translation x y z).
Proof.
  destruct e as [slot act act' pn sp ar sc rl n].
  unfold_publisher. exec; intros H; in_cases H;
    injection H as <- <-; eauto 10.
Qed.

Lemma script_publisher_matrix (dev : MyCobot) (e : Env) (node : string) (t : Transform) :
  In (E_SetMatrixTransformToParent node t)
     (calls (updateProbeToRobotBaseTransform dev e)) ->
  exists x y z,
    angles_to_coords (joint_angles dev) !! 0%nat = Some x
    /\ angles_to_coords (joint_angles dev) !! 1%nat = Some y
    /\ angles_to_coords (joint_angles dev) !! 2%nat = Some z
    /\ t = T_matrix (translation x y z).
Proof.
  destruct e as [slot act act' pn sp ar sc rl n].
  unfold_publisher. exec; intros H; in_cases H;
    injection H as <- <-; eauto 10.
Qed.

Lemma translation_rotation_block (x y z : float) (i j : nat) :
  (i < 3)%nat -> (j < 3)%nat ->
  GetElement i j (translation x y z) = Some (if Nat.eqb i j then 1 else 0)%float.
Proof.
  intros Hi Hj.
  destruct i as [|[|[|i]]]; try lia; destruct j as [|[|[|j]]]; try lia; reflexivity.
Qed.

(** C10: every transform the pose publisher emits (the widget's and the
    script's alike) is the identity matrix with only the elements (0,3),
    (1,3), (2,3) set, from the first three components of the converted
    pose; the rotation block stays the identity, so the orientation
    components of the pose are not used. *)
Theorem published_transform_is_translation_only
    (e : Env) (script_mc : MyCobot) (node : string) (t : Transform) :
  In (E_SetMatrixTransformToParent node t)
     (calls (updateProbeHolderToRobotBaseTransform e))
  \/ In (E_SetMatrixTransformToParent node t)
        (calls (updateProbeToRobotBaseTransform script_mc e)) ->
  exists dev x y z,
    let position := angles_to_coords (joint_angles dev) in
    (mc e = McObj dev \/ dev = script_mc)
    /\ position !! 0%nat = Some x
    /\ position !! 1%nat = Some y
    /\ position !! 2%nat = Some z
    /\ t = T_matrix [ [1; 0; 0; x]; [0; 1; 0; y]; [0; 0; 1; z]; [0; 0; 0; 1] ]%float
    /\ (forall m, t = T_matrix m ->
        forall i j, (i < 3)%nat -> (j < 3)%nat ->
        GetElement i j m = Some (if Nat.eqb i j then 1 else 0)%float).
Proof.
  intros [H | H].
  - destruct (widget_publisher_matrix e node t H) as (dev & x & y & z & Hmc & H0 & H1 & H2 & ->).
    exists dev, x, y, z. cbn zeta. repeat split; auto.
    intros m [= <-] i j. apply translation_rotation_block.
  - destruct (script_publisher_matrix script_mc e node t H) as (x & y & z & H0 & H1 & H2 & ->).
    exists script_mc, x, y, z. cbn zeta. repeat split; auto.
    intros m [= <-] i j. apply translation_rotation_block.
Qed.

(** *** Volume reconstruction *)

Lemma before_from (p : Event -> bool) (t : list Event) : t = before p t ++ from p t.
Proof. induction t as [|ev t IH]; cbn; [reflexivity|]. destruct (p ev); cbn; congruence. Qed.

Lemma frame_refl (e : Env) : frame e e.
Proof. repeat split. Qed.

Lemma frame_trans (e e1 e2 : Env) : frame e e1 -> frame e1 e2 -> frame e e2.
Proof. unfold frame. intros (-> & -> & -> & ->) (-> & -> & -> & ->). repeat split. Qed.

Lemma quiet_ret {A : Type} (a : A) : quiet (mret a).
Proof. intros e. exists a, e, []. repeat split. Qed.

Lemma quiet_gets {A : Type} (g : Env -> A) : quiet (gets g).
Proof. intros e. exists (g e), e, []. repeat split. Qed.

Lemma quiet_emit (ev : Event) : is_noisy ev = false -> quiet (emit ev).
Proof. intros H e. exists tt, e, [ev]. cbn. rewrite H. repeat split. Qed.

Lemma quiet_bind {A B : Type} (m : M A) (f : A -> M B) :
  quiet m -> (forall a, quiet (f a)) -> quiet (m ≫= f).
Proof.
  intros Hm Hf e.
  destruct (Hm e) as (a & e1 & t1 & Heq1 & Hfr1 & Hq1).
  destruct (Hf a e1) as (b & e2 & t2 & Heq2 & Hfr2 & Hq2).
  exists b, e2, (t1 ++ t2). rewrite run_bind, Heq1, Heq2.
  split; [reflexivity|]. split; [eapply frame_trans; eassumption|].
  rewrite existsb_app, Hq1, Hq2. reflexivity.
Qed.

Lemma quiet_GetFirstNodeByName (name : string) : quiet (GetFirstNodeByName name).
Proof.
  intros e. eexists _, e, _. unfold GetFirstNodeByName. run.
  repeat split.
Qed.

Lemma quiet_AddNewNodeByClass (cls name : string) : quiet (AddNewNodeByClass cls name).
Proof.
  intros e. eexists _, _, _. unfold AddNewNodeByClass. run.
  repeat split.
Qed.

Ltac solve_quiet :=
  repeat first
    [ apply quiet_ret
    | apply quiet_gets
    | apply quiet_GetFirstNodeByName
    | apply quiet_AddNewNodeByClass
    | apply quiet_emit; reflexivity
    | apply quiet_bind; [ | intros ? ]
    | match goal with
      | |- quiet (match ?x with _ => _ end) => destruct x
      end ].

Lemma before_app_none (p : Event -> bool) (t0 t : list Event) :
  existsb p t0 = false -> before p (t0 ++ t) = t0 ++ before p t.
Proof.
  induction t0 as [|ev t0 IH]; cbn; [reflexivity|].
  destruct (p ev); cbn; [discriminate|]. intros H. rewrite IH by exact H. reflexivity.
Qed.

Lemma from_app_none (p : Event -> bool) (t0 t : list Event) :
  existsb p t0 = false -> from p (t0 ++ t) = from p t.
Proof.
  induction t0 as [|ev t0 IH]; cbn; [reflexivity|].
  destruct (p ev); cbn; [discriminate|]. exact IH.
Qed.

Lemma noisy_none (t : list Event) :
  existsb is_noisy t = false ->
  existsb is_loud t = false /\ existsb is_errorDisplay t = false
  /\ existsb is_interval t = false.
Proof.
  induction t as [|ev t IH]; cbn; [auto|].
  unfold is_noisy at 1. intros H.
  apply orb_false_iff in H as [H1 H2]. apply orb_false_iff in H1 as [Hl He].
  destruct (IH H2) as (-> & -> & ->). rewrite Hl, He.
  destruct ev; try discriminate Hl; auto.
Qed.

(** A quiet prefix does not change the shape. *)
Lemma shape_prefix (e e1 : Env) (res : Res unit) (t0 t : list Event) :
  existsb is_noisy t0 = false ->
  reconstruction_shape e (res, e1, t) ->
  reconstruction_shape e (res, e1, t0 ++ t).
Proof.
  intros H0 (Hfr & Hbefore & Hcases).
  destruct (noisy_none t0 H0) as (Hl & He & Hi).
  unfold reconstruction_shape. cbn [result final calls fst snd] in *.
  rewrite (before_app_none _ _ _ Hi), (from_app_none _ _ _ Hi), !existsb_app, Hl, He.
  cbn [orb]. auto.
Qed.

Lemma shape_step {A : Type} (m : M A) (f : A -> M unit) (e e1 : Env) :
  quiet m ->
  frame e e1 ->
  (forall a e2, frame e e2 -> reconstruction_shape e (f a e2)) ->
  reconstruction_shape e ((m ≫= f) e1).
Proof.
  intros Hq Hfr Hf.
  destruct (Hq e1) as (a & e2 & t & Heq & Hfr2 & Hsil).
  rewrite run_bind, Heq.
  specialize (Hf a e2 (frame_trans _ _ _ Hfr Hfr2)).
  destruct (f a e2) as [[res e3] t3].
  apply shape_prefix; assumption.
Qed.

Lemma shape_gets {A : Type} (g : Env -> A) (f : A -> M unit) (e e1 : Env) :
  reconstruction_shape e (f (g e1) e1) ->
  reconstruction_shape e ((gets g ≫= f) e1).
Proof.
  intros H. rewrite run_bind. cbn [gets].
  destruct (f (g e1) e1) as [[res e3] t3]. exact H.
Qed.

Ltac shape_steps :=
  repeat first
    [ eapply shape_step; [ solve [solve_quiet] | eassumption | intros ? ? ?; cbv beta ]
    | match goal with
      | |- reconstruction_shape _ (match ?x with _ => _ end _) => destruct x
      end ].

Ltac shape_leaf :=
  split; [ repeat split | split; [ reflexivity | ] ];
  first
    [ (* the whole tail *)
      right; right; split; [ reflexivity | split; [ reflexivity | ] ];
      do 4 eexists; split; cycle 1;
      [ reflexivity
      | do 2 eexists; split; [ eassumption | split; [ | reflexivity ] ];
        match goal with
        | H : <[_ := _]> _ !! _ = Some _ |- _ =>
            rewrite list_lookup_insert_ne in H by lia; exact H
        end ]
    | (* an exception after the arm has moved *)
      right; left; split; [ eexists; reflexivity | ];
      eexists _, 0%float, 0%float, 0%float; right; reflexivity
    | (* an exception before the arm has moved *)
      right; left; split; [ eexists; reflexivity | ];
      exists [], 0%float, 0%float, 0%float; left; reflexivity ].

(** Every run of the configuration part has the shape described. *)
Lemma configure_shape (usImageNode : Node) (e : Env) :
  reconstruction_shape e (configureAndStartReconstruction usImageNode e).
Proof.
  enough (H : forall e1, frame e e1 ->
            reconstruction_shape e (configureAndStartReconstruction usImageNode e1))
    by (apply H, frame_refl).
  intros e1 Hfr. unfold configureAndStartReconstruction.
  apply shape_gets. cbv beta.
  replace (liveUpdates (parameterNode e1)) with (liveUpdates (parameterNode e))
    by (destruct Hfr as (_ & -> & _); reflexivity).
  shape_steps.
  - match goal with
    | H : frame e ?e' |- reconstruction_shape _ (_ ?e') =>
        revert H; clear; intros H; destruct e as [slot act a' [it s0 r0 inv ca live] sp ar sc rl n],
          e' as [slot1 act1 a1' pn1 sp1 ar1 sc1 rl1 n1];
        unfold frame in H; cbn in H; destruct H as (-> & -> & -> & ->)
    end.
    unfold reconstruction_shape, onStartButton, _moveByAngle, slicer_mc, getitem.
    exec; shape_leaf.
  - unfold reconstruction_shape. cbn.
    split; [assumption | split; [reflexivity | left; repeat split]].
Qed.

Arguments waitForImage : simpl never.

Lemma waitForImage_unfold (k : nat) :
  waitForImage (S k) =
  (usImageNode ← GetFirstNodeByName "Image_Reference";
   match usImageNode with
   | Some nd => mret (Some nd)
   | None => slicer_app_processEvents;; emit (E_sleep 0.1);; waitForImage k
   end).
Proof. reflexivity. Qed.

(** The wait loop always returns, and only polls. *)
Lemma waitForImage_polls (n : nat) (e : Env) :
  exists a e1 t, waitForImage n e = (Ok a, e1, t) /\ forallb is_poll t = true.
Proof.
  revert e. induction n as [|k IH]; intros e.
  - exists None, e, []. split; reflexivity.
  - rewrite waitForImage_unfold.
    unfold GetFirstNodeByName, slicer_app_processEvents. run.
    destruct (firstNodeByName "Image_Reference" (mrmlScene e)) as [nd|].
    + eexists _, _, _. run. split; reflexivity.
    + run.
      match goal with
      | |- context [waitForImage k ?e1] =>
          destruct (IH e1) as (a & e2 & t & -> & Ht)
      end.
      eexists _, _, _. split; [reflexivity|]. cbn. exact Ht.
Qed.

Lemma poll_not_noisy (t : list Event) :
  forallb is_poll t = true -> existsb is_noisy t = false.
Proof.
  induction t as [|ev t IH]; cbn; [reflexivity|].
  intros H. apply andb_true_iff in H as [Hev Ht]. rewrite (IH Ht).
  destruct ev; try discriminate Hev; reflexivity.
Qed.

(** While the image is absent, every round is unsuccessful. *)
Lemma waitForImage_never (n : nat) (e : Env) :
  (forall env, firstNodeByName "Image_Reference" (mrmlScene env) = None ->
               firstNodeByName "Image_Reference" (mrmlScene (processEvents env)) = None) ->
  firstNodeByName "Image_Reference" (mrmlScene e) = None ->
  exists e1, waitForImage n e = (Ok None, e1, concat (replicate n poll)).
Proof.
  intros Hhost. revert e. induction n as [|k IH]; intros e He.
  - exists e. reflexivity.
  - rewrite waitForImage_unfold.
    unfold GetFirstNodeByName, slicer_app_processEvents. run. rewrite He. run.
    match goal with
    | |- context [waitForImage k ?e1] =>
        destruct (IH e1) as (e2 & ->); [ apply (Hhost e He) | ]
    end.
    exists e2. reflexivity.
Qed.

Lemma firstNodeByName_app (name : string) (s : Scene) (n : Node) :
  firstNodeByName name (s ++ [n]) =
  match firstNodeByName name s with
  | Some x => Some x
  | None => if String.eqb (node_name n) name then Some n else None
  end.
Proof.
  unfold firstNodeByName. induction s as [|x s IH]; cbn; [reflexivity|].
  destruct (String.eqb (node_name x) name); [reflexivity | exact IH].
Qed.

(** The handler as a quiet beginning followed by the error display or by
    the configuration part. *)
Lemma reset_decompose (e : Env) :
  exists t0 e2,
    existsb is_noisy t0 = false
    /\ (onResetVolumeReconstructionButton e
        = (Ok tt, e2, t0 ++ [E_errorDisplay "Failed to receive ultrasound image"])
       \/ exists us,
            onResetVolumeReconstructionButton e
            = (result (configureAndStartReconstruction us e2),
               final (configureAndStartReconstruction us e2),
               t0 ++ calls (configureAndStartReconstruction us e2))).
Proof.
  destruct e as [slot act act' pn sp ar sc rl n].
  unfold onResetVolumeReconstructionButton, GetFirstNodeByClass, AddNewNodeByClass.
  exec;
    match goal with
    | |- context [waitForImage 30 ?e1] =>
        destruct (waitForImage_polls 30 e1) as (a & e2 & t & -> & Ht)
    end;
    apply poll_not_noisy in Ht;
    (destruct a as [us|];
     [ destruct (configureAndStartReconstruction us e2) as [[res e3] t3] eqn:Hcfg
     | ]);
    eexists (_ :: _ :: _ :: _ :: t), _;
    (split; cycle 1;
     [ first [ left; reflexivity | right; exists us; rewrite Hcfg; reflexivity ]
     | cbn; exact Ht ]).
Qed.

Lemma existsb_none_In (p : Event -> bool) (t : list Event) (ev : Event) :
  existsb p t = false -> In ev t -> p ev = false.
Proof.
  intros Hnone Hin. destruct (p ev) eqn:Hp; [|reflexivity].
  assert (existsb p t = true) by (apply existsb_exists; eauto). congruence.
Qed.

Lemma loud_none (t : list Event) :
  existsb is_loud t = false -> existsb is_move_or_start t = false.
Proof.
  induction t as [|ev t IH]; cbn; [reflexivity|].
  intros H. apply orb_false_iff in H as [Hev Ht]. rewrite (IH Ht).
  destruct ev; try discriminate Hev; reflexivity.
Qed.

Lemma start_target_frame (e e1 : Env) (target : list float) :
  frame e e1 -> start_target e target -> start_target e1 target.
Proof. unfold start_target. intros (_ & -> & _ & ->) H. exact H. Qed.

(** C8: in a run of resetAndStart that returns without an error display,
    the start move is issued in blocking mode with speed 15, to the
    sweep-start pose, and the call that starts the live reconstruction
    comes after it: it is the last call of the run, and it is the only
    start and the blocking move the only command to the arm. *)
Theorem start_pose_reached_before_reconstruction (e : Env) :
  let r := onResetVolumeReconstructionButton e in
  result r = Ok tt ->
  (forall msg, ~ In (E_errorDisplay msg) (calls r)) ->
  exists pre mid target,
    calls r = pre ++ E_sync_send_angles target 15 :: mid ++ [E_StartLiveVolumeReconstruction]
    /\ start_target (final r) target
    /\ existsb is_move_or_start pre = false
    /\ existsb is_move_or_start mid = false.
Proof.
  intros r Hres Herr. subst r.
  destruct (reset_decompose e) as (t0 & e2 & Ht0 & [Heq | (us & Heq)]).
  - exfalso. apply (Herr "Failed to receive ultrasound image").
    rewrite Heq. cbn. apply in_or_app. right. left. reflexivity.
  - rewrite Heq in *. cbn [result final calls fst snd] in *.
    destruct (configure_shape us e2) as (Hfr & Hbefore & Hcases).
    destruct (configureAndStartReconstruction us e2) as [[res e3] t3].
    cbn [result final calls fst snd] in *.
    destruct Hcases as
      [(_ & He & _) | [((x & Hx) & _) | (_ & _ & target & x & y & z & Htgt & Hfrom)]].
    + exfalso. apply existsb_exists in He as (ev & Hin & Hev).
      destruct ev; try discriminate Hev.
      apply (Herr msg). apply in_or_app. right. exact Hin.
    + congruence.
    + set (live := liveUpdates (parameterNode e2)) in *.
      exists (t0 ++ before is_interval t3
                 ++ take 2 (reconstruction_tail live target x y z)),
             (removelast (drop 3 (reconstruction_tail live target x y z))),
             target.
      split; [| split; [| split]].
      * rewrite (before_from is_interval t3) at 1. rewrite Hfrom.
        cbn. rewrite <- !app_assoc. reflexivity.
      * exact (start_target_frame _ _ _ Hfr Htgt).
      * destruct (noisy_none t0 Ht0) as (Hl0 & _ & _).
        rewrite !existsb_app, (loud_none _ Hl0), (loud_none _ Hbefore). reflexivity.
      * reflexivity.
Qed.

(** C2, as the code has it: whenever the reconstruction session's output
    spacing is set, it is the same on the three axes and is 1.0 (coarser)
    when liveUpdates is true and 0.5 (finer) when it is false; the
    live-update interval set with it is 1 second when liveUpdates is true
    and 1000 seconds when it is false. *)
Theorem spacing_coarser_when_live (e : Env) (x y z : float) :
  let r := onResetVolumeReconstructionButton e in
  let live := liveUpdates (parameterNode (final r)) in
  In (E_SetOutputSpacing x y z) (calls r) ->
  x = outputSpacing live /\ y = outputSpacing live /\ z = outputSpacing live
  /\ In (E_SetLiveUpdateIntervalSeconds (liveUpdateIntervalSeconds live)) (calls r)
  /\ (forall s, In (E_SetLiveUpdateIntervalSeconds s) (calls r) ->
       s = liveUpdateIntervalSeconds live)
  /\ (outputSpacing false <? outputSpacing true)%float = true
  /\ liveUpdateIntervalSeconds true < liveUpdateIntervalSeconds false.
Proof.
  intros r live. subst r live.
  destruct (reset_decompose e) as (t0 & e2 & Ht0 & [Heq | (us & Heq)]);
    rewrite Heq; cbn [result final calls fst snd]; intros Hin.
  - apply in_app_or in Hin as [Hin | Hin].
    + apply (existsb_none_In _ _ _ Ht0) in Hin. discriminate Hin.
    + in_cases Hin.
  - destruct (configure_shape us e2) as (Hfr & Hbefore & Hcases).
    destruct (configureAndStartReconstruction us e2) as [[res e3] t3].
    cbn [result final calls fst snd] in *.
    destruct Hfr as (_ & -> & _).
    set (live := liveUpdates (parameterNode e2)) in *.
    destruct (noisy_none t0 Ht0) as (_ & _ & Hi0).
    assert (Hsplit : forall ev, In ev (t0 ++ t3) -> is_loud ev = true ->
                                In ev (from is_interval t3)).
    { intros ev H Hev. apply in_app_or in H as [H | H].
      - apply (existsb_none_In _ _ _ Ht0) in H. unfold is_noisy in H.
        rewrite Hev in H. discriminate H.
      - rewrite (before_from is_interval t3) in H. apply in_app_or in H as [H | H].
        + apply (existsb_none_In _ _ _ Hbefore) in H. congruence.
        + exact H. }
    assert (Hback : forall ev, In ev (from is_interval t3) -> In ev (t0 ++ t3)).
    { intros ev H. apply in_or_app. right.
      rewrite (before_from is_interval t3). apply in_or_app. right. exact H. }
    pose proof (Hsplit _ Hin eq_refl) as Hsp.
    assert (Hint : forall s, In (E_SetLiveUpdateIntervalSeconds s) (t0 ++ t3) ->
                             In (E_SetLiveUpdateIntervalSeconds s) (from is_interval t3))
      by (intros s H; exact (Hsplit _ H eq_refl)).
    destruct Hcases as
      [(_ & _ & Hfrom) | [(_ & target & a & b & c & [Hfrom | Hfrom])
                         | (_ & _ & target & a & b & c & _ & Hfrom)]];
      rewrite Hfrom in *; cbn in Hsp; in_cases Hsp; injection Hsp as <- <- <-;
      (repeat split;
       [ apply Hback; left; reflexivity
       | intros s Hs; apply Hint in Hs; cbn in Hs; in_cases Hs;
         injection Hs as <-; reflexivity ]).
Qed.

(** C5: if the image node never appears, resetAndStart looks for it 30
    times, sleeping 0.1 s (100 ms) after each look, then displays the
    failure to receive the ultrasound image and returns; it has set no
    geometry, moved nothing and started no reconstruction. *)
Theorem image_never_appears_reports_failure (e : Env) :
  firstNodeByName "Image_Reference" (mrmlScene e) = None ->
  (forall env, firstNodeByName "Image_Reference" (mrmlScene env) = None ->
               firstNodeByName "Image_Reference" (mrmlScene (processEvents env)) = None) ->
  let r := onResetVolumeReconstructionButton e in
  let cls := "vtkMRMLIGTLConnectorNode" in
  exists connect,
    (connect = [E_GetFirstNodeByClass cls; E_connector_Stop;
                E_connector_SetTypeClient "localhost" 18944; E_connector_Start]
     \/ connect = [E_GetFirstNodeByClass cls;
                   E_AddNewNodeByClass cls "RobotUltrasoundConnector";
                   E_connector_SetTypeClient "localhost" 18944; E_connector_Start])
    /\ result r = Ok tt
    /\ calls r = connect ++ concat (replicate 30 poll)
                 ++ [E_errorDisplay "Failed to receive ultrasound image"]
    /\ length (List.filter is_sleep (calls r)) = 30%nat
    /\ (forall s, In (E_sleep s) (calls r) -> (s * 1000 = 100)%float)
    /\ existsb is_geometry (calls r) = false
    /\ existsb is_loud (calls r) = false.
Proof.
  intros He Hhost r cls. subst r cls.
  destruct e as [slot act act' pn sp ar sc rl n]. cbn [mrmlScene] in He.
  unfold onResetVolumeReconstructionButton, GetFirstNodeByClass, AddNewNodeByClass.
  exec;
    match goal with
    | |- context [waitForImage 30 ?e1] =>
        destruct (waitForImage_never 30 e1 Hhost) as (e2 & ->);
          [ cbn [mrmlScene set_mrmlScene];
            rewrite ?firstNodeByName_app, ?He; reflexivity | ]
    end;
    run; cbn [result final calls fst snd];
    (first
       [ exists [E_GetFirstNodeByClass "vtkMRMLIGTLConnectorNode"; E_connector_Stop;
                 E_connector_SetTypeClient "localhost" 18944; E_connector_Start];
         split; [ left; reflexivity | ];
         split; [ reflexivity | split; [ reflexivity | ] ]
       | exists [E_GetFirstNodeByClass "vtkMRMLIGTLConnectorNode";
                 E_AddNewNodeByClass "vtkMRMLIGTLConnectorNode" "RobotUltrasoundConnector";
                 E_connector_SetTypeClient "localhost" 18944; E_connector_Start];
         split; [ right; reflexivity | ];
         split; [ reflexivity | split; [ reflexivity | ] ] ]);
    (split; [ reflexivity | ]);
    (split; [ | split; reflexivity ]);
    intros s Hs; vm_compute in Hs; in_cases Hs; injection Hs as <-; reflexivity.
Qed.

(** X2: when the image is there but no robot-base transform exists (the arm
    was never connected), the handler displays that the robot position is
    not found and returns: no spacing or interval is set, nothing moves and
    no reconstruction starts. *)
Theorem robot_position_missing_aborts (e : Env) (us : Node) :
  firstNodeByName "Image_Reference" (mrmlScene e) = Some us ->
  firstNodeByName "ProbeHolderToRobotBase" (mrmlScene e) = None ->
  let r := onResetVolumeReconstructionButton e in
  result r = Ok tt
  /\ In (E_errorDisplay "Robot position is not found. Connect to the robot first.")
        (calls r)
  /\ existsb is_loud (calls r) = false.
Proof.
  intros Himg Hrobot r. subst r.
  destruct e as [slot act act' [it s0 r0 inv ca live] sp ar sc rl n].
  cbn [mrmlScene] in Himg, Hrobot.
  unfold onResetVolumeReconstructionButton, GetFirstNodeByClass.
  rewrite run_bind, run_bind. cbn [emit gets fst snd app mrmlScene].
  destruct (firstNodeByClass "vtkMRMLIGTLConnectorNode" sc);
    unfold AddNewNodeByClass; run; rewrite waitForImage_unfold;
    unfold configureAndStartReconstruction, GetFirstNodeByName, AddNewNodeByClass;
    repeat first
      [ rewrite run_bind
      | rewrite firstNodeByName_app
      | rewrite Himg
      | rewrite Hrobot
      | progress cbn [emit gets modify raise lift mret M_ret fst snd app
                      mrmlScene set_mrmlScene parameterNode liveUpdates
                      volumereslicedriver_logic node_name
                      String.eqb Ascii.eqb Bool.eqb]
      | match goal with
        | |- context [if ?b then _ else _] => is_var b; destruct b
        | |- context [match firstNodeByName ?a ?b with _ => _ end] =>
            destruct (firstNodeByName a b)
        end ];
    cbn; auto 60.
Qed.

(** ** Further properties of the handlers *)

(** *** Sweep control: errors and composition *)

(** X3: with fewer than six stored centre angles the sweep handlers raise
    IndexError before anything is sent, and change nothing. *)
Theorem short_center_raises_IndexError
    (e : Env) (a : float) (wait : bool) (spd : option Z) :
  (length (centerAngles (parameterNode e)) < 6)%nat ->
  _moveByAngle a wait spd e = (Raise IndexError, e, [])
  /\ onStartButton wait spd e = (Raise IndexError, e, [])
  /\ onCenterButton wait spd e = (Raise IndexError, e, [])
  /\ onEndButton wait spd e = (Raise IndexError, e, []).
Proof.
  intros Hlen.
  assert (Hmove : forall b, _moveByAngle b wait spd e = (Raise IndexError, e, [])).
  { intros b. unfold _moveByAngle. run.
    destruct (centerAngles (parameterNode e)) as [|c0 [|c1 [|c2 [|c3 [|c4 [|c5 l]]]]]];
      cbn in Hlen; try lia; reflexivity. }
  unfold onStartButton, onCenterButton, onEndButton. run. rewrite !Hmove.
  repeat split.
Qed.

(** X4: while [slicer.mc] is unset or [None], none of the handlers that
    command or read the arm makes any call: each raises, whatever the
    stored centre and the sliders are. *)
Theorem no_call_without_arm (e : Env) (wait : bool) (spd : option Z) :
  mc e = McUnset \/ mc e = McNone ->
  Forall (fun h : M unit => (exists x, result (h e) = Raise x) /\ calls (h e) = [])
    [ onHomeButton; onSetAsCenterButton;
      onStartButton wait spd; onCenterButton wait spd; onEndButton wait spd;
      onStartVolumeReconstructionButton; onFlyButton; onLandButton ].
Proof.
  intros Hmc.
  assert (Hslot : forall method, (exists x, result (slicer_mc method e) = Raise x)
                                 /\ calls (slicer_mc method e) = []).
  { intros method. unfold slicer_mc. run. destruct Hmc as [-> | ->]; cbn; eauto. }
  assert (Hmove : forall b w s, (exists x, result (_moveByAngle b w s e) = Raise x)
                                /\ calls (_moveByAngle b w s e) = []).
  { intros b w s. unfold _moveByAngle, getitem, lift.
    repeat first
      [ rewrite run_bind
      | progress cbn [emit gets modify raise mret M_ret fst snd app result calls]
      | match goal with
        | |- context [slicer_mc ?m e] =>
            destruct (Hslot m) as [[x Hx] Hc];
            destruct (slicer_mc m e) as [[res e1] t1];
            cbn in Hx, Hc; subst res t1
        | |- context [match ?x with _ => _ end] =>
            lazymatch type of x with
            | (_ * _)%type => fail
            | _ => destruct x
            end
        end ];
    eauto. }
  assert (Hbind : forall (g : Env -> float) (k : float -> float) w s,
            (exists x, result ((v ← gets g; _moveByAngle (k v) w s) e) = Raise x)
            /\ calls ((v ← gets g; _moveByAngle (k v) w s) e) = []).
  { intros g k w s. run.
    destruct (Hmove (k (g e)) w s) as [[x Hx] Hc].
    destruct (_moveByAngle (k (g e)) w s e) as [[res e1] t1].
    cbn in Hx, Hc. subst. cbn. eauto. }
  assert (Hfirst : forall (method : string) (k : MyCobot -> M unit),
            (exists x, result ((dev ← slicer_mc method; k dev) e) = Raise x)
            /\ calls ((dev ← slicer_mc method; k dev) e) = []).
  { intros method k. run.
    destruct (Hslot method) as [[x Hx] Hc].
    destruct (slicer_mc method e) as [[res e1] t1].
    cbn in Hx, Hc. subst. cbn. eauto. }
  repeat apply List.Forall_cons; [ .. | apply List.Forall_nil ].
  - apply Hfirst.
  - apply Hfirst.
  - exact (Hbind angleRangeSlider (fun v => - v / 2)%float wait spd).
  - exact (Hmove 0%float wait spd).
  - exact (Hbind angleRangeSlider (fun v => v / 2)%float wait spd).
  - exact (Hbind angleRangeSlider (fun v => v / 2)%float false None).
  - apply Hfirst.
  - apply Hfirst.
Qed.

(** X5: [onSetAsCenterButton] stores the arm's live joint angles as the
    centre, so a sweep that follows is relative to the pose the arm had
    then: axes 0 and 5 of that pose offset by the half range. *)
Theorem sweep_after_setAsCenter
    (e : Env) (dev : MyCobot) (j0 j1 j2 j3 j4 j5 : float) (wait : bool) (s : Z) :
  mc e = McObj dev ->
  joint_angles dev = [j0; j1; j2; j3; j4; j5] ->
  let r := onSetAsCenterButton e in
  let command := fun target =>
    if wait then E_sync_send_angles target s else E_send_angles target s in
  let a := (- angleRangeSlider e / 2)%float in
  let b := (angleRangeSlider e / 2)%float in
  result r = Ok tt
  /\ calls r = [E_get_angles]
  /\ centerAngles (parameterNode (final r)) = [j0; j1; j2; j3; j4; j5]
  /\ calls (onStartButton wait (Some s) (final r))
     = [command [j0 + a; j1; j2; j3; j4; j5 + a]%float]
  /\ calls (onEndButton wait (Some s) (final r))
     = [command [j0 + b; j1; j2; j3; j4; j5 + b]%float].
Proof.
  intros Hmc Hj r command a b. subst r command a b.
  assert (Hr : onSetAsCenterButton e
               = (Ok tt,
                  set_parameterNode
                    (set_centerAngles [j0; j1; j2; j3; j4; j5] (parameterNode e)) e,
                  [E_get_angles])).
  { unfold onSetAsCenterButton, slicer_mc. run. rewrite Hmc. run. rewrite Hj.
    reflexivity. }
  rewrite Hr. cbn [result final calls fst snd].
  pose proof (fun c =>
    moveByAngle_six
      (set_parameterNode (set_centerAngles [j0; j1; j2; j3; j4; j5] (parameterNode e)) e)
      dev j0 j1 j2 j3 j4 j5 c wait (Some s) s eq_refl Hmc eq_refl) as Hmove.
  unfold onStartButton, onEndButton. run. rewrite !Hmove.
  repeat split.
Qed.

(** X6: [onResetCenterToDefaultButton] overwrites the stored centre before
    it commands the arm, so without an arm the command fails and nothing is
    sent, yet the stored centre is the factory pose afterwards. *)
Theorem resetCenterToDefault_without_arm (e : Env) (s : Z) :
  mc e = McNone ->
  py_int (speedSlider e) = Ok s ->
  let r := onResetCenterToDefaultButton e in
  result r = Raise (AttributeError "send_angles")
  /\ calls r = []
  /\ centerAngles (parameterNode (final r)) = _defaultCenterAngles.
Proof.
  intros Hmc Hs r. subst r.
  destruct e as [slot act act' pn sp ar sc rl n]. cbn in Hmc, Hs. subst slot.
  unfold onResetCenterToDefaultButton, onCenterButton, _moveByAngle, slicer_mc, lift.
  repeat first
    [ rewrite run_bind
    | rewrite Hs
    | progress cbn [emit gets modify raise mret M_ret getitem fst snd app
                    lookup list_lookup insert list_insert
                    result final calls mc speedSlider parameterNode centerAngles
                    set_parameterNode set_centerAngles _defaultCenterAngles] ].
  repeat split.
Qed.

(** *** The pose publisher: the connected case *)

(** X7: an iteration on a connected arm, whatever the flag was before,
    emits exactly one transform (creating the node only when the scene has
    none) and ends with a zero-delay single shot exactly when the flag is
    true after [processEvents]. *)
Theorem connected_iteration_emits_and_reschedules
    (e : Env) (dev : MyCobot) (x y z : float) (rest : list float) :
  mc e = McObj dev ->
  controller_connected dev = true ->
  angles_to_coords (joint_angles dev) = x :: y :: z :: rest ->
  let r := updateProbeHolderToRobotBaseTransform e in
  let name := "ProbeHolderToRobotBase" in
  result r = Ok tt
  /\ calls r
     = [E_is_controller_connected; E_GetFirstNodeByName name]
       ++ match firstNodeByName name (mrmlScene e) with
          | Some _ => []
          | None => [E_AddNewNodeByClass "vtkMRMLTransformNode" name]
          end
       ++ [E_get_angles; E_angles_to_coords (joint_angles dev);
           E_SetMatrixTransformToParent name (T_matrix (translation x y z));
           E_Modified name; E_processEvents]
       ++ (if updateProbeHolderToRobotBaseTransformActive (final r)
           then [E_singleShot 0 cb_updateProbeHolderToRobotBaseTransform]
           else []).
Proof.
  intros Hmc Hcon Hpos r name. subst r name.
  destruct e as [slot act act' pn sp ar sc rl n], dev as [ja cc].
  cbn in Hmc, Hcon, Hpos. subst slot cc.
  unfold updateProbeHolderToRobotBaseTransform, mc_not_connected, slicer_mc, getitem,
    GetFirstNodeByName, AddNewNodeByClass, slicer_app_processEvents.
  repeat first [ rewrite Hpos | exec_step ]; try congruence; split; reflexivity.
Qed.

(** X8: when the pose conversion yields fewer than three components, both
    publishers raise IndexError: nothing is emitted and nothing scheduled,
    so the chain of iterations ends. *)
Theorem short_pose_ends_publisher (e : Env) (dev script_mc : MyCobot) (n : nat) :
  mc e = McObj dev ->
  controller_connected dev = true ->
  (length (angles_to_coords (joint_angles dev)) < 3)%nat ->
  (length (angles_to_coords (joint_angles script_mc)) < 3)%nat ->
  let r := updateProbeHolderToRobotBaseTransform e in
  let r' := updateProbeToRobotBaseTransform script_mc e in
  result r = Raise IndexError
  /\ existsb is_emission (calls r) = false
  /\ existsb is_singleShot (calls r) = false
  /\ timer_chain (S n) e = (final r, calls r)
  /\ result r' = Raise IndexError
  /\ existsb is_emission (calls r') = false
  /\ existsb is_singleShot (calls r') = false.
Proof.
  intros Hmc Hcon Hlen Hlen' r r'. subst r r'.
  assert (Hwidget :
            result (updateProbeHolderToRobotBaseTransform e) = Raise IndexError
            /\ existsb is_emission (calls (updateProbeHolderToRobotBaseTransform e)) = false
            /\ existsb is_singleShot (calls (updateProbeHolderToRobotBaseTransform e))
               = false).
  { destruct e as [slot act act' pn sp ar sc rl k], dev as [ja cc].
    cbn in Hmc, Hcon, Hlen. subst slot cc.
    unfold updateProbeHolderToRobotBaseTransform, mc_not_connected, slicer_mc, getitem,
      GetFirstNodeByName, AddNewNodeByClass, slicer_app_processEvents.
    destruct (angles_to_coords ja) as [|p0 [|p1 [|p2 l]]] eqn:Hp;
      cbn in Hlen; try lia;
      repeat first [ rewrite Hp | exec_step ]; repeat split. }
  destruct Hwidget as (Hres & Hemit & Hshot).
  split; [exact Hres|]. split; [exact Hemit|]. split; [exact Hshot|].
  split.
  { cbn [timer_chain].
    destruct (updateProbeHolderToRobotBaseTransform e) as [[res e1] t1].
    cbn in Hshot |- *. rewrite Hshot. reflexivity. }
  destruct e as [slot act act' pn sp ar sc rl k], script_mc as [ja' cc'].
  cbn in Hlen'.
  unfold updateProbeToRobotBaseTransform, getitem,
    GetFirstNodeByName, AddNewNodeByClass, slicer_app_processEvents.
  destruct (angles_to_coords ja') as [|q0 [|q1 [|q2 l']]] eqn:Hq;
    cbn in Hlen'; try lia;
    repeat first [ rewrite Hq | exec_step ]; repeat split.
Qed.

(** What an iteration on a ready arm does, seen from the timer. *)
Lemma ready_iteration (e : Env) :
  arm_ready e ->
  let r := updateProbeHolderToRobotBaseTransform e in
  exists e_mid,
    mc e_mid = mc e
    /\ updateProbeHolderToRobotBaseTransformActive e_mid
       = updateProbeHolderToRobotBaseTransformActive e
    /\ final r = set_processed (S (processed e_mid)) (processEvents e_mid)
    /\ length (List.filter is_emission (calls r)) = 1%nat
    /\ existsb is_singleShot (calls r)
       = updateProbeHolderToRobotBaseTransformActive (final r)
    /\ length (List.filter is_singleShot (calls r))
       = if updateProbeHolderToRobotBaseTransformActive (final r) then 1%nat else 0%nat.
Proof.
  intros (dev & Hmc & Hcon & Hlen) r. subst r.
  destruct e as [slot act act' pn sp ar sc rl n], dev as [ja cc].
  cbn in Hmc, Hcon, Hlen. subst slot cc.
  unfold updateProbeHolderToRobotBaseTransform, mc_not_connected, slicer_mc, getitem,
    GetFirstNodeByName, AddNewNodeByClass, slicer_app_processEvents.
  destruct (angles_to_coords ja) as [|x [|y [|z rest]]] eqn:Hpos;
    cbn in Hlen; try lia.
  repeat first [ rewrite Hpos | exec_step ]; try congruence;
    match goal with
    | |- context [processEvents ?em] => exists em
    end;
    repeat split.
Qed.

Lemma arm_ready_mc (e e1 : Env) : mc e1 = mc e -> arm_ready e -> arm_ready e1.
Proof. intros Hmc (dev & H & Hrest). exists dev. rewrite Hmc. auto. Qed.

(** X9: while the host keeps the arm ready and the flag true, the publisher
    never stops by itself: watched for [n] timer firings it has emitted
    exactly [n] transforms and scheduled its next run [n] times. *)
Theorem publisher_keeps_running (e : Env) (n : nat) :
  (forall env, arm_ready env -> arm_ready (processEvents env)) ->
  (forall env, updateProbeHolderToRobotBaseTransformActive env = true ->
               updateProbeHolderToRobotBaseTransformActive (processEvents env) = true) ->
  arm_ready e ->
  updateProbeHolderToRobotBaseTransformActive e = true ->
  length (List.filter is_emission (snd (timer_chain n e))) = n
  /\ length (List.filter is_singleShot (snd (timer_chain n e))) = n.
Proof.
  intros Hready Hflag. revert e.
  induction n as [|n IH]; intros e He Hact; [split; reflexivity|].
  cbn [timer_chain].
  destruct (ready_iteration e He) as (e_mid & Hmc & Hfl & Hfin & Hem & Hex & Hss).
  assert (Hmid : arm_ready (processEvents e_mid))
    by (apply Hready, (arm_ready_mc e); assumption).
  assert (Hmidf : updateProbeHolderToRobotBaseTransformActive (processEvents e_mid) = true)
    by (apply Hflag; congruence).
  destruct (updateProbeHolderToRobotBaseTransform e) as [[res e1] t1].
  cbn [final calls fst snd] in *. subst e1.
  cbn [updateProbeHolderToRobotBaseTransformActive set_processed] in Hex, Hss.
  rewrite Hmidf in Hex, Hss. rewrite Hex.
  match goal with
  | |- context [timer_chain n ?e2] =>
      destruct (IH e2) as [IHe IHs];
        [ apply Hready, (arm_ready_mc (processEvents e_mid)); [reflexivity | exact Hmid]
        | apply Hflag; exact Hmidf
        | destruct (timer_chain n e2) as [e3 t3] ]
  end.
  cbn [snd] in *. rewrite !List.filter_app, !length_app, Hem, Hss, IHe, IHs.
  split; reflexivity.
Qed.

(** One iteration leaves the scene alone or, if it has no node of that
    name, appends the one node. *)
Lemma iteration_scene (e : Env) :
  (forall env, mrmlScene (processEvents env) = mrmlScene env) ->
  let s' := mrmlScene (final (updateProbeHolderToRobotBaseTransform e)) in
  s' = mrmlScene e
  \/ (firstNodeByName "ProbeHolderToRobotBase" (mrmlScene e) = None
      /\ s' = mrmlScene e ++ [ProbeHolderToRobotBase_node]).
Proof.
  intros Hhost.
  destruct e as [slot act act' pn sp ar sc rl n].
  unfold updateProbeHolderToRobotBaseTransform, mc_not_connected, slicer_mc, getitem,
    GetFirstNodeByName, AddNewNodeByClass, slicer_app_processEvents, load_global.
  repeat first [ rewrite Hhost | exec_step ];
    first [ left; reflexivity | right; split; reflexivity ].
Qed.

(** X10: on a host that leaves the scene alone, the publisher creates its
    transform node at most once: after any number of iterations the scene
    is as it was, or, if it had no ProbeHolderToRobotBase node, has that
    one node appended. *)
Theorem transform_node_created_at_most_once (e : Env) (n : nat) :
  (forall env, mrmlScene (processEvents env) = mrmlScene env) ->
  let s' := mrmlScene (fst (timer_chain n e)) in
  s' = mrmlScene e
  \/ (firstNodeByName "ProbeHolderToRobotBase" (mrmlScene e) = None
      /\ s' = mrmlScene e ++ [ProbeHolderToRobotBase_node]).
Proof.
  intros Hhost. revert e.
  induction n as [|n IH]; intros e; [left; reflexivity|].
  cbn [timer_chain].
  pose proof (iteration_scene e Hhost) as Hit. cbv zeta in Hit.
  destruct (updateProbeHolderToRobotBaseTransform e) as [[res e1] t1].
  cbn [final fst snd] in Hit.
  destruct (existsb is_singleShot t1); [| exact Hit].
  specialize (IH (processEvents e1)). cbv zeta in IH.
  destruct (timer_chain n (processEvents e1)) as [e2 t2].
  cbn [fst] in *. rewrite Hhost in IH.
  destruct Hit as [Hit | [Hnone Hit]]; rewrite Hit in IH.
  - exact IH.
  - destruct IH as [IH | [Habs _]]; [right; auto|].
    rewrite firstNodeByName_app, Hnone in Habs. discriminate Habs.
Qed.

(** *** Connecting and disconnecting *)

Lemma wrun_bind {A B : Type} (m : W A) (f : A -> W B) (e : Env) :
  (m ≫= f) e =
  match m e with
  | (WOk a, e1, t1) => let '(r, e2, t2) := f a e1 in (r, e2, t1 ++ t2)
  | (WRaise x, e1, t1) => (WRaise x, e1, t1)
  end.
Proof. reflexivity. Qed.

Ltac wexec_step :=
  first
    [ rewrite wrun_bind
    | rewrite run_bind
    | progress cbn
    | match goal with
      | |- context [match ?x with _ => _ end] =>
          lazymatch type of x with
          | (_ * _)%type => fail
          | Res _ => fail
          | WRes _ => fail
          | _ => destruct x eqn:?
          end
      end ].

Ltac wexec := repeat wexec_step.

(** X11: [onDisconnectButton] never raises and always ends with
    [slicer.mc = None] and the publisher flag false, whatever the state
    before; it closes the port exactly when there was an arm object, and a
    second disconnect changes nothing more and closes nothing. *)
Theorem disconnect_always_disconnects (e : Env) :
  let r := onDisconnectButton e in
  let label := [W_label_text "<font color='gray'>Status: Disconnected.</font>";
                W_label_toolTip ""] in
  wresult r = WOk tt
  /\ wfinal r = set_active false (set_mc McNone e)
  /\ wcalls r = match mc e with McObj _ => [W_close] | _ => [] end ++ label
  /\ onDisconnectButton (wfinal r) = (WOk tt, wfinal r, label).
Proof.
  destruct e as [slot act act' pn sp ar sc rl n].
  unfold onDisconnectButton. destruct slot; wexec; repeat split.
Qed.

(** X12: after a disconnect nothing reaches the arm: a publisher iteration
    that is still pending raises AttributeError at [get_angles], emits no
    transform and schedules nothing, so the chain ends; and the stop button
    raises AttributeError without calling [stop]. *)
Theorem after_disconnect_nothing_reaches_arm (e : Env) (n : nat) :
  let e1 := wfinal (onDisconnectButton e) in
  let r := updateProbeHolderToRobotBaseTransform e1 in
  result r = Raise (AttributeError "get_angles")
  /\ existsb is_emission (calls r) = false
  /\ existsb is_singleShot (calls r) = false
  /\ ~ In E_get_angles (calls r)
  /\ timer_chain (S n) e1 = (final r, calls r)
  /\ onStopButton e1 = (WRaise (Py (AttributeError "stop")), e1, []).
Proof.
  destruct e as [slot act act' pn sp ar sc rl k].
  cbn [timer_chain].
  unfold onDisconnectButton, onStopButton, liftW,
    updateProbeHolderToRobotBaseTransform, mc_not_connected, slicer_mc, getitem,
    GetFirstNodeByName, AddNewNodeByClass, slicer_app_processEvents, load_global.
  destruct slot; wexec; repeat split; intros H; in_cases H.
Qed.

(** X13: [onConnectButton] never raises: whatever fails inside its [try]
    (the import, the serial port, the first publisher iteration) is caught.
    A run that printed a traceback shows the red failure status and ends
    with [slicer.mc = None]; every other run shows the green status. *)
Theorem connect_never_raises (e : Env) :
  let r := onConnectButton e in
  wresult r = WOk tt
  /\ (existsb is_print_exc (wcalls r) = true ->
      mc (wfinal r) = McNone
      /\ In (W_label_text "<font color='red'>Status: Connection failed.</font>")
            (wcalls r))
  /\ (existsb is_print_exc (wcalls r) = false ->
      In (W_label_text "<font color='green'>Status: Connected.</font>") (wcalls r)).
Proof.
  unfold onConnectButton, try_except, liftW, slicer_mc, slicer_app_processEvents.
  generalize updateProbeHolderToRobotBaseTransform. intros publisher.
  assert (Hmap : forall t, existsb is_print_exc (map W_host t) = false).
  { induction t as [|ev t IH]; [reflexivity | exact IH]. }
  destruct e as [slot act act' pn sp ar sc rl n].
  repeat first
    [ rewrite wrun_bind
    | rewrite run_bind
    | progress cbn [emit gets modify raise mret M_ret wemit wgets wmodify wlift W_ret
                    fst snd app wresult wfinal wcalls mc set_mc set_active set_processed]
    | match goal with
      | |- context [publisher ?e1] => destruct (publisher e1) as [[[[]|x] e3] t3]
      | |- context [match ?x with _ => _ end] =>
          lazymatch type of x with
          | (_ * _)%type => fail
          | _ => destruct x eqn:?
          end
      end ];
    cbn [map app existsb is_print_exc orb];
    rewrite ?existsb_app; cbn [existsb is_print_exc orb]; rewrite ?Hmap;
    (split; [ reflexivity | split; intros Hp; try discriminate Hp ]);
    try (split; [ reflexivity | ]);
    rewrite ?in_app_iff; cbn [In]; rewrite ?in_app_iff; cbn [In]; auto 30.
Qed.

(** X14: connecting to an arm object whose controller does not answer
    shows the green status first and then fails: the first publisher
    iteration raises NameError (the bare callback name), which the handler
    reports as a failed connection; it drops the arm object but leaves the
    publisher flag true. *)
Theorem connect_to_silent_controller_fails (e : Env) (dev : MyCobot) :
  let e1 := set_processed (S (processed e)) (processEvents e) in
  let x := Py (NameError "updateProbeHolderToRobotBaseTransform") in
  pymycobot_import = None ->
  mc e1 = McObj dev ->
  controller_connected dev = false ->
  onConnectButton e
  = (WOk tt, set_mc McNone (set_active true e1),
     [ W_label_text "<font color='yellow'>Status: Connecting...</font>";
       W_label_toolTip "";
       W_host E_processEvents;
       W_get_system_version;
       W_label_text "<font color='green'>Status: Connected.</font>";
       W_label_toolTip ("System version: " ++ get_system_version dev)%string;
       W_host E_is_controller_connected;
       W_print_exc x;
       W_label_text "<font color='red'>Status: Connection failed.</font>";
       W_label_toolTip_str x ]).
Proof.
  intros e1 x Himp Hmc Hcon. subst e1 x.
  destruct e as [slot act act' pn sp ar sc rl n], dev as [ja cc].
  cbn in Hmc, Hcon. subst cc.
  unfold onConnectButton, try_except, liftW, slicer_mc, slicer_app_processEvents,
    updateProbeHolderToRobotBaseTransform, mc_not_connected, load_global.
  repeat first [ rewrite Himp | rewrite Hmc | wexec_step ]; reflexivity.
Qed.

Lemma ready_iteration_returns (e : Env) :
  arm_ready e -> result (updateProbeHolderToRobotBaseTransform e) = Ok tt.
Proof.
  intros (dev & Hmc & Hcon & Hlen).
  destruct e as [slot act act' pn sp ar sc rl n], dev as [ja cc].
  cbn in Hmc, Hcon, Hlen. subst slot cc.
  unfold updateProbeHolderToRobotBaseTransform, mc_not_connected, slicer_mc, getitem,
    GetFirstNodeByName, AddNewNodeByClass, slicer_app_processEvents.
  destruct (angles_to_coords ja) as [|x [|y [|z rest]]] eqn:Hpos;
    cbn in Hlen; try lia.
  repeat first [ rewrite Hpos | exec_step ]; reflexivity.
Qed.

(** X15: with no arm object yet, a successful connect constructs one on
    COM5 at 115200 baud, shows the green status with the version, sets the
    publisher flag and runs the first publisher iteration at once, which
    emits one transform. *)
Theorem connect_new_arm_starts_publisher (e : Env) (dev : MyCobot) :
  let e1 := set_processed (S (processed e)) (processEvents e) in
  let e2 := set_active true (set_mc (McObj dev) e1) in
  let it := updateProbeHolderToRobotBaseTransform e2 in
  pymycobot_import = None ->
  mc e1 = McUnset \/ mc e1 = McNone ->
  MyCobot_new = WOk dev ->
  controller_connected dev = true ->
  (3 <= length (angles_to_coords (joint_angles dev)))%nat ->
  onConnectButton e
  = (WOk tt, final it,
     [ W_label_text "<font color='yellow'>Status: Connecting...</font>";
       W_label_toolTip "";
       W_host E_processEvents;
       W_MyCobot "COM5" 115200;
       W_get_system_version;
       W_label_text "<font color='green'>Status: Connected.</font>";
       W_label_toolTip ("System version: " ++ get_system_version dev)%string ]
     ++ map W_host (calls it))
  /\ length (List.filter is_emission (calls it)) = 1%nat.
Proof.
  intros e1 e2 it Himp Hmc Hnew Hcon Hlen.
  assert (Hready : arm_ready e2) by (exists dev; repeat split; assumption).
  pose proof (ready_iteration_returns e2 Hready) as Hres.
  destruct (ready_iteration e2 Hready) as (_ & _ & _ & _ & Hem & _).
  fold it in Hres, Hem. split; [| exact Hem].
  subst it e2 e1.
  destruct e as [slot act act' pn sp ar sc rl n].
  cbn [processed] in *.
  unfold onConnectButton, try_except, liftW, slicer_mc, slicer_app_processEvents.
  revert Hres. generalize updateProbeHolderToRobotBaseTransform. intros publisher Hres.
  repeat first
    [ rewrite wrun_bind
    | rewrite run_bind
    | rewrite Himp
    | rewrite Hnew
    | progress cbn [emit gets modify raise mret M_ret wemit wgets wmodify wlift W_ret
                    fst snd app map mc set_mc set_active set_processed processed] ].
  cbn [mc set_processed] in Hmc.
  destruct Hmc as [Hmc | Hmc]; rewrite Hmc;
    repeat first
      [ rewrite wrun_bind
      | rewrite run_bind
      | rewrite Hnew
      | progress cbn [emit gets modify raise mret M_ret wemit wgets wmodify wlift W_ret
                      fst snd app map mc set_mc set_active set_processed processed] ];
    match goal with
    | |- context [publisher ?env] =>
        match type of Hres with
        | result (publisher ?env') = _ =>
            change env with env';
            destruct (publisher env') as [[res e3] t3]
        end
    end;
    cbn in Hres; subst res; reflexivity.
Qed.

(** X16: the relax and manual-centre handlers act on the arm object that
    is there after their delay; when it goes away during the positioning
    delay (for instance by a disconnect), locking raises AttributeError,
    [focus_all_servos] is never called and the servos stay released. *)
Theorem manual_centering_interrupted (e : Env) (dev : MyCobot) :
  mc (processEvents e) = McObj dev ->
  mc (processEvents (processEvents e)) = McNone ->
  onRelaxButton e
  = (WOk tt, processEvents e,
     [ W_delayDisplay "Relax the arm in 3 seconds..." 3000; W_release_all_servos ])
  /\ onSetCenterManuallyButton e
     = (WRaise (Py (AttributeError "focus_all_servos")),
        processEvents (processEvents e),
        [ W_delayDisplay "Relax the arm in 3 seconds..." 3000;
          W_release_all_servos;
          W_delayDisplay "Position the arm for 5 seconds..." 5000 ]).
Proof.
  intros H1 H2.
  unfold onRelaxButton, onSetCenterManuallyButton, delayDisplay, liftW, slicer_mc.
  split;
    repeat first
      [ rewrite wrun_bind
      | rewrite run_bind
      | rewrite H1
      | rewrite H2
      | progress cbn [emit gets modify raise mret M_ret wemit wgets wmodify wlift W_ret
                      fst snd app map] ];
    reflexivity.
Qed.

(** *** The script *)

Lemma py_index_Some_bound {A : Type} (t : list A) (i : Z) (x : A) :
  py_index t i = Some x -> i < Z.of_nat (length t).
Proof.
  unfold py_index. destruct (0 <=? i) eqn:Hi.
  - intros H. apply lookup_lt_Some in H. lia.
  - lia.
Qed.

(** X17: [moveRobot] never schedules its next run: it sends the pose at the
    current index (or raises IndexError past the table) and adds one to
    the index, but its test [index > len] cannot hold then; from index 0
    only the first pose of the table is ever sent. *)
Theorem moveRobot_never_reschedules (g : ScriptGlobals) (p : list float)
    (rest : list (list float)) :
  let r := moveRobot g in
  existsb is_W_singleShot (snd r) = false
  /\ slicer_angles (snd (fst r)) = slicer_angles g
  /\ match fst (fst r) with
     | WOk _ =>
         slicer_angleIndex (snd (fst r)) = slicer_angleIndex g + 1
         /\ exists angles,
              py_index (slicer_angles g) (slicer_angleIndex g) = Some angles
              /\ snd r = [W_host (E_send_angles angles 20)]
     | WRaise x =>
         x = Py IndexError /\ snd (fst r) = g /\ snd r = []
         /\ py_index (slicer_angles g) (slicer_angleIndex g) = None
     end
  /\ moveRobot {| slicer_angles := p :: rest; slicer_angleIndex := 0 |}
     = (WOk tt, {| slicer_angles := p :: rest; slicer_angleIndex := 1 |},
        [W_host (E_send_angles p 20)]).
Proof.
  intros r. subst r. split; [| split; [| split]].
  - unfold moveRobot.
    destruct (py_index (slicer_angles g) (slicer_angleIndex g)) as [angles|] eqn:Hidx;
      [| reflexivity].
    apply py_index_Some_bound in Hidx. cbn.
    destruct (Z.ltb_spec (Z.of_nat (length (slicer_angles g))) (slicer_angleIndex g + 1));
      [lia | reflexivity].
  - unfold moveRobot.
    destruct (py_index (slicer_angles g) (slicer_angleIndex g)); reflexivity.
  - unfold moveRobot.
    destruct (py_index (slicer_angles g) (slicer_angleIndex g)) as [angles|] eqn:Hidx.
    + pose proof (py_index_Some_bound _ _ _ Hidx) as Hb. cbn.
      split; [reflexivity|]. exists angles. split; [reflexivity|].
      destruct (Z.ltb_spec (Z.of_nat (length (slicer_angles g))) (slicer_angleIndex g + 1));
        [lia | reflexivity].
    + cbn. repeat split.
  - unfold moveRobot, py_index.
    cbn [slicer_angles slicer_angleIndex].
    change (Z.to_nat 0) with 0%nat. change (0 + 1) with 1.
    cbn [Z.leb Z.compare lookup list_lookup length].
    destruct (Z.ltb_spec (Z.of_nat (S (length rest))) 1); [lia | reflexivity].
Qed.

(** X18: the publisher of [drivemycobot.py] looks for a node named
    LinearTransform but creates one with the base name ProbeToRobotBase, so
    on a scene without a LinearTransform node a run always asks the scene
    for a new node: the scene grows by one node and the lookup fails again
    on the next run. *)
Theorem drivemycobot_publisher_adds_node_each_run (e : Env) (dev : MyCobot) :
  (forall env, mrmlScene (processEvents env) = mrmlScene env) ->
  firstNodeByName "LinearTransform" (mrmlScene e) = None ->
  let r := drivemycobot_updateProbeToRobotBaseTransform dev e in
  In (W_host (E_AddNewNodeByClass "vtkMRMLTransformNode" "ProbeToRobotBase")) (wcalls r)
  /\ length (mrmlScene (wfinal r)) = S (length (mrmlScene e))
  /\ firstNodeByName "LinearTransform" (mrmlScene (wfinal r)) = None.
Proof.
  intros Hhost Hnone r. subst r.
  assert (Hscene : mrmlScene
            (wfinal (drivemycobot_updateProbeToRobotBaseTransform dev e))
          = mrmlScene e ++ [ProbeToRobotBase_node]
          /\ In (W_host (E_AddNewNodeByClass "vtkMRMLTransformNode" "ProbeToRobotBase"))
                (wcalls (drivemycobot_updateProbeToRobotBaseTransform dev e))).
  { destruct e as [slot act act' pn sp ar sc rl n]. cbn [mrmlScene] in Hnone.
    unfold drivemycobot_updateProbeToRobotBaseTransform, liftW, getitem,
      GetFirstNodeByName, AddNewNodeByClass, slicer_app_processEvents.
    repeat first
      [ rewrite wrun_bind
      | rewrite run_bind
      | rewrite Hnone
      | rewrite Hhost
      | progress cbn [emit gets modify raise mret M_ret wemit wgets wmodify wlift W_ret
                      fst snd app map wfinal wcalls mrmlScene set_mrmlScene
                      set_processed node_name updateProbeToRobotBaseTransformActive]
      | match goal with
        | |- context [match ?x with _ => _ end] =>
            lazymatch type of x with
            | (_ * _)%type => fail
            | _ => destruct x eqn:?
            end
        end ];
      (split; [ reflexivity | cbn; repeat first [left; reflexivity | right] ]). }
  destruct Hscene as [Hs Hm]. split; [exact Hm|]. split.
  - rewrite Hs, List.length_app. cbn. lia.
  - rewrite Hs, firstNodeByName_app, Hnone. reflexivity.
Qed.
End Handlers.

(** ** The parameter node's bounds *)

(** Inside the bounds an assignment is stored. *)
Example speed_15_accepted (p : ParameterNode) :
  fst (set_speed 15 p) = Ok tt /\ speed (snd (set_speed 15 p)) = 15%float.
Proof. split; reflexivity. Qed.

(** C7: an assignment of a speed outside [1,50] or of an angleRange
    outside [0,90] is rejected with an exception, not clamped, and the
    parameter node is left as it was. *)
Theorem out_of_range_setting_rejected (vs va : float) (p : ParameterNode) :
  outside 1 50 vs ->
  outside 0 90 va ->
  set_speed vs p = (Raise ValueError, p)
  /\ set_angleRange va p = (Raise ValueError, p).
Proof.
  unfold outside, set_speed, set_angleRange, WithinRange.
  intros [Hs | Hs] [Ha | Ha]; rewrite Hs, Ha, ?orb_true_r; split; reflexivity.
Qed.

(** ** The theorems at concrete situations *)

Lemma sweep_target_example :
  calls (onStartButton true (Some 15) (situation (McObj arm_connected) true true []))
    = [E_sync_send_angles [-15; -28; -135; 76; 5; 30]%float 15]
  /\ calls (onEndButton true (Some 15) (situation (McObj arm_connected) true true []))
    = [E_sync_send_angles [15; -28; -135; 76; 5; 60]%float 15].
Proof.
  exact (proj2 (proj2 (proj2
           (sweep_target_offsets_axes_0_and_5
              (situation (McObj arm_connected) true true []) arm_connected
              0 (-28) (-135) 76 5 45 0 true (Some 15) 15
              eq_refl eq_refl eq_refl)))
         eq_refl eq_refl).
Defined.

Lemma resetCenterToDefault_example :
  let e := set_parameterNode
             (set_centerAngles [8.08; -28.12; -135.26; 76.11; 4.48; 61.17]%float
                defaultParameterNode)
             (situation (McObj arm_connected) true true []) in
  calls (onResetCenterToDefaultButton e)
    = [E_send_angles [0; -28; -135; 76; 5; 45]%float 5].
Proof.
  exact (proj2 (proj2
           (resetCenterToDefault_commands_factory_pose
              (set_parameterNode
                 (set_centerAngles [8.08; -28.12; -135.26; 76.11; 4.48; 61.17]%float
                    defaultParameterNode)
                 (situation (McObj arm_connected) true true []))
              arm_connected 5 eq_refl eq_refl))).
Defined.

Lemma fly_land_example :
  calls (onFlyButton fixed_pose (situation (McObj arm_connected) true true []))
    = [E_get_angles; E_angles_to_coords [0; -28; -135; 76; 5; 45]%float;
       E_send_coords [150; 0; 85; 175; 0; -45]%float 10 0]
  /\ calls (onLandButton fixed_pose (situation (McObj arm_connected) true true []))
    = [E_get_angles; E_angles_to_coords [0; -28; -135; 76; 5; 45]%float;
       E_send_coords [150; 0; 75; 175; 0; -45]%float 10 0].
Proof.
  pose proof (fly_land_nudge_live_z fixed_pose
                (situation (McObj arm_connected) true true []) arm_connected
                150 0 80 [175; 0; -45]%float [0; 0; 0; 0; 0; 0]%float
                eq_refl eq_refl) as H.
  exact (conj (proj1 H) (proj1 (proj2 H))).
Defined.

Lemma backoff_iteration_example :
  result (updateProbeHolderToRobotBaseTransform fixed_pose idle_host
            (situation (McObj arm_unplugged) true true []))
    = Raise (NameError "updateProbeHolderToRobotBaseTransform").
Proof.
  exact (proj1
           (backoff_iteration_raises_NameError fixed_pose idle_host
              (situation (McObj arm_unplugged) true true [])
              eq_refl
              (or_intror (or_intror
                 (ex_intro _ arm_unplugged (conj eq_refl eq_refl)))))).
Defined.

Lemma inactive_publisher_example :
  timer_chain fixed_pose cleanup 5 (situation (McObj arm_connected) true true [])
  = (final (updateProbeHolderToRobotBaseTransform fixed_pose cleanup
              (situation (McObj arm_connected) true true [])),
     calls (updateProbeHolderToRobotBaseTransform fixed_pose cleanup
              (situation (McObj arm_connected) true true [])))
  /\ List.filter is_emission
       (snd (timer_chain fixed_pose cleanup 5
               (situation (McObj arm_connected) true true [])))
     = [E_SetMatrixTransformToParent "ProbeHolderToRobotBase"
          (T_matrix (translation 150 0 80))].
Proof.
  split; [| reflexivity].
  exact (proj1 (proj2
           (inactive_publisher_never_reschedules fixed_pose cleanup
              (situation (McObj arm_connected) true true []) 4 eq_refl))).
Defined.

Lemma published_transform_example :
  exists dev x y z,
    (mc (situation (McObj arm_connected) true true []) = McObj dev \/ dev = arm_unplugged)
    /\ fixed_pose (joint_angles dev) !! 0%nat = Some x
    /\ fixed_pose (joint_angles dev) !! 1%nat = Some y
    /\ fixed_pose (joint_angles dev) !! 2%nat = Some z
    /\ T_matrix (translation 150 0 80)
       = T_matrix [ [1; 0; 0; x]; [0; 1; 0; y]; [0; 0; 1; z]; [0; 0; 0; 1] ]%float
    /\ (forall m, T_matrix (translation 150 0 80) = T_matrix m ->
        forall i j, (i < 3)%nat -> (j < 3)%nat ->
        GetElement i j m = Some (if Nat.eqb i j then 1 else 0)%float).
Proof.
  apply (published_transform_is_translation_only fixed_pose idle_host
           (situation (McObj arm_connected) true true []) arm_unplugged
           "ProbeHolderToRobotBase" (T_matrix (translation 150 0 80))).
  left. vm_compute. repeat first [ left; reflexivity | right ].
Defined.

Lemma start_pose_example :
  exists pre mid target,
    calls (onResetVolumeReconstructionButton fixed_pose idle_host
             (situation (McObj arm_connected) true true [image_node; robot_base_node]))
    = pre ++ E_sync_send_angles target 15 :: mid ++ [E_StartLiveVolumeReconstruction]
    /\ start_target
         (final (onResetVolumeReconstructionButton fixed_pose idle_host
                   (situation (McObj arm_connected) true true
                      [image_node; robot_base_node])))
         target
    /\ existsb is_move_or_start pre = false
    /\ existsb is_move_or_start mid = false.
Proof.
  apply (start_pose_reached_before_reconstruction fixed_pose idle_host
           (situation (McObj arm_connected) true true [image_node; robot_base_node])).
  - reflexivity.
  - intros msg H. vm_compute in H. in_cases H.
Defined.

Lemma spacing_when_not_live_example :
  0.5%float = outputSpacing false
  /\ In (E_SetLiveUpdateIntervalSeconds 1000)
        (calls (onResetVolumeReconstructionButton fixed_pose idle_host
                  (situation (McObj arm_connected) true false
                     [image_node; robot_base_node]))).
Proof.
  pose proof (spacing_coarser_when_live fixed_pose idle_host
                (situation (McObj arm_connected) true false [image_node; robot_base_node])
                0.5 0.5 0.5) as H.
  cbv zeta in H.
  assert (Hin : In (E_SetOutputSpacing 0.5 0.5 0.5)
                  (calls (onResetVolumeReconstructionButton fixed_pose idle_host
                            (situation (McObj arm_connected) true false
                               [image_node; robot_base_node])))).
  { vm_compute. repeat first [ left; reflexivity | right ]. }
  destruct (H Hin) as (Hx & _ & _ & Hi & _).
  split; [exact Hx | exact Hi].
Defined.

(** The claim of C2 on spacing fails: with liveUpdates true the handler
    sets spacing 1.0, with liveUpdates false 0.5, and 1.0 is not below 0.5,
    so the live volume is the coarser one, not the finer. *)
Lemma live_spacing_is_not_finer :
  In (E_SetOutputSpacing 1 1 1)
     (calls (onResetVolumeReconstructionButton fixed_pose idle_host
               (situation (McObj arm_connected) true true [image_node; robot_base_node])))
  /\ In (E_SetOutputSpacing 0.5 0.5 0.5)
       (calls (onResetVolumeReconstructionButton fixed_pose idle_host
                 (situation (McObj arm_connected) true false
                    [image_node; robot_base_node])))
  /\ (1 <? 0.5)%float = false
  /\ (outputSpacing true <? outputSpacing false)%float = false.
Proof.
  split; [| split; [| split; reflexivity]]; vm_compute;
    repeat first [ left; reflexivity | right ].
Qed.

Lemma image_never_appears_example :
  result (onResetVolumeReconstructionButton fixed_pose idle_host
            (situation (McObj arm_connected) true true [robot_base_node]))
    = Ok tt
  /\ existsb is_loud
       (calls (onResetVolumeReconstructionButton fixed_pose idle_host
                 (situation (McObj arm_connected) true true [robot_base_node])))
     = false.
Proof.
  destruct (image_never_appears_reports_failure fixed_pose idle_host
              (situation (McObj arm_connected) true true [robot_base_node])
              eq_refl (fun env H => H))
    as (connect & _ & Hres & _ & _ & _ & _ & Hloud).
  exact (conj Hres Hloud).
Defined.

Lemma out_of_range_setting_example :
  outside 1 50 51 /\ outside 0 90 (-1)
  /\ set_speed 51 defaultParameterNode = (Raise ValueError, defaultParameterNode)
  /\ set_angleRange (-1) defaultParameterNode = (Raise ValueError, defaultParameterNode).
Proof.
  split; [right; reflexivity |].
  split; [left; reflexivity |].
  apply (out_of_range_setting_rejected 51 (-1) defaultParameterNode);
    [right; reflexivity | left; reflexivity].
Defined.

Lemma disconnected_iteration_example :
  In E_get_angles
     (calls (updateProbeHolderToRobotBaseTransform fixed_pose idle_host
               (situation (McObj arm_unplugged) false true []))).
Proof.
  exact (disconnected_iteration_falls_through fixed_pose idle_host
           (situation (McObj arm_unplugged) false true []) arm_unplugged
           eq_refl eq_refl eq_refl).
Defined.

Lemma robot_position_missing_example :
  In (E_errorDisplay "Robot position is not found. Connect to the robot first.")
     (calls (onResetVolumeReconstructionButton fixed_pose idle_host
               (situation McNone false true [image_node]))).
Proof.
  exact (proj1 (proj2
           (robot_position_missing_aborts fixed_pose idle_host
              (situation McNone false true [image_node]) image_node
              eq_refl eq_refl))).
Defined.

(** ** Further situations *)

Lemma short_center_example :
  onStartButton false None short_centre = (Raise IndexError, short_centre, []).
Proof.
  refine (proj1 (proj2 (short_center_raises_IndexError short_centre 0 false None _))).
  cbn. lia.
Defined.

Lemma no_call_without_arm_example :
  calls (onFlyButton fixed_pose (situation McNone true false [])) = [].
Proof.
  pose proof (no_call_without_arm fixed_pose (situation McNone true false [])
                false None (or_intror eq_refl)) as H.
  do 6 apply List.Forall_inv_tail in H.
  exact (proj2 (List.Forall_inv H)).
Defined.

Lemma sweep_after_setAsCenter_example :
  calls (onStartButton false (Some 15)
           (final (onSetAsCenterButton
                     (set_mc (McObj arm_connected) short_centre))))
  = [E_send_angles [-15; -28; -135; 76; 5; 30]%float 15].
Proof.
  exact (proj1 (proj2 (proj2 (proj2
           (sweep_after_setAsCenter (set_mc (McObj arm_connected) short_centre)
              arm_connected 0 (-28) (-135) 76 5 45 false 15 eq_refl eq_refl))))).
Defined.

Lemma resetCenterToDefault_without_arm_example :
  calls (onResetCenterToDefaultButton (set_mc McNone short_centre)) = []
  /\ centerAngles (parameterNode
       (final (onResetCenterToDefaultButton (set_mc McNone short_centre))))
     = _defaultCenterAngles.
Proof.
  exact (proj2 (resetCenterToDefault_without_arm (set_mc McNone short_centre) 5
                  eq_refl eq_refl)).
Defined.

Lemma connected_iteration_example :
  calls (updateProbeHolderToRobotBaseTransform fixed_pose cleanup
           (situation (McObj arm_connected) true false [robot_base_node]))
  = [ E_is_controller_connected;
      E_GetFirstNodeByName "ProbeHolderToRobotBase";
      E_get_angles;
      E_angles_to_coords [0; -28; -135; 76; 5; 45]%float;
      E_SetMatrixTransformToParent "ProbeHolderToRobotBase"
        (T_matrix (translation 150 0 80));
      E_Modified "ProbeHolderToRobotBase";
      E_processEvents ].
Proof.
  exact (proj2 (connected_iteration_emits_and_reschedules fixed_pose cleanup
                  (situation (McObj arm_connected) true false [robot_base_node])
                  arm_connected 150 0 80 [175; 0; -45]%float
                  eq_refl eq_refl eq_refl)).
Defined.

Lemma short_pose_example :
  result (updateProbeHolderToRobotBaseTransform short_pose idle_host
            (situation (McObj arm_connected) true false []))
  = Raise IndexError.
Proof.
  refine (proj1 (short_pose_ends_publisher short_pose idle_host
                   (situation (McObj arm_connected) true false [])
                   arm_connected arm_connected 2 eq_refl eq_refl _ _));
    cbn; lia.
Defined.

Lemma publisher_keeps_running_example :
  length (List.filter is_emission
            (snd (timer_chain fixed_pose idle_host 3
                    (situation (McObj arm_connected) true false []))))
  = 3%nat.
Proof.
  refine (proj1 (publisher_keeps_running fixed_pose idle_host
                   (situation (McObj arm_connected) true false []) 3
                   (fun _ H => H) (fun _ H => H) _ eq_refl)).
  exists arm_connected. split; [reflexivity|]. split; [reflexivity|]. cbn. lia.
Defined.

Lemma transform_node_example :
  mrmlScene (fst (timer_chain fixed_pose idle_host 3
                    (situation (McObj arm_connected) true false [])))
  = []
  \/ (firstNodeByName "ProbeHolderToRobotBase" [] = None
      /\ mrmlScene (fst (timer_chain fixed_pose idle_host 3
                           (situation (McObj arm_connected) true false [])))
         = [] ++ [ProbeHolderToRobotBase_node]).
Proof.
  exact (transform_node_created_at_most_once fixed_pose idle_host
           (situation (McObj arm_connected) true false []) 3 (fun _ => eq_refl)).
Defined.

Lemma connect_to_silent_controller_example :
  mc (wfinal (onConnectButton fixed_pose idle_host None (WOk arm_connected)
                (fun _ => "1.0"%string)
                (situation (McObj arm_unplugged) false false [])))
  = McNone
  /\ updateProbeHolderToRobotBaseTransformActive
       (wfinal (onConnectButton fixed_pose idle_host None (WOk arm_connected)
                  (fun _ => "1.0"%string)
                  (situation (McObj arm_unplugged) false false [])))
     = true.
Proof.
  rewrite (connect_to_silent_controller_fails fixed_pose idle_host None
             (WOk arm_connected) (fun _ => "1.0"%string)
             (situation (McObj arm_unplugged) false false []) arm_unplugged
             eq_refl eq_refl eq_refl).
  split; reflexivity.
Defined.

Lemma connect_new_arm_example :
  length (List.filter is_emission
            (calls (updateProbeHolderToRobotBaseTransform fixed_pose idle_host
                      (set_active true
                         (set_mc (McObj arm_connected)
                            (set_processed 1 (situation McUnset false false [])))))))
  = 1%nat.
Proof.
  refine (proj2 (connect_new_arm_starts_publisher fixed_pose idle_host None
                   (WOk arm_connected) (fun _ => "1.0"%string)
                   (situation McUnset false false []) arm_connected
                   eq_refl (or_introl eq_refl) eq_refl eq_refl _)).
  cbn. lia.
Defined.

Lemma manual_centering_example :
  wcalls (onSetCenterManuallyButton unplug_then_disconnect
            (situation (McObj arm_connected) true false []))
  = [ W_delayDisplay "Relax the arm in 3 seconds..." 3000;
      W_release_all_servos;
      W_delayDisplay "Position the arm for 5 seconds..." 5000 ].
Proof.
  exact (f_equal wcalls
           (proj2 (manual_centering_interrupted unplug_then_disconnect
                     (situation (McObj arm_connected) true false []) arm_unplugged
                     eq_refl eq_refl))).
Defined.

Lemma drivemycobot_publisher_example :
  length (mrmlScene
            (wfinal (drivemycobot_updateProbeToRobotBaseTransform fixed_pose idle_host
                       arm_connected (situation McUnset true false [image_node]))))
  = 2%nat.
Proof.
  exact (proj1 (proj2
           (drivemycobot_publisher_adds_node_each_run fixed_pose idle_host
              (situation McUnset true false [image_node])
              arm_connected (fun _ => eq_refl) eq_refl))).
Defined.
